(** * AI Study Buddy (study_buddy_app.py): notes, quiz placeholder, saved-note list

    A shallow embedding of the Streamlit script [study_buddy_app.py].
    Python strings are sequences of Unicode code points, the Firestore
    database is a finite map from collection paths to collections of
    note documents, and every call that leaves the process (Streamlit
    elements, Firestore requests, [time.sleep]) is appended to a trace. *)

From Stdlib Require Import ZArith NArith Ascii String.
From stdpp Require Import gmap list sorting lexico.

Set Warnings "-register-all".
Local Open Scope Z_scope.

(** ** Python [str]

    A [str] is a sequence of code points; [len] counts code points and
    slicing cuts between them. *)

Abbreviation str := (list N).

Module Py.

(** An ASCII literal of the source, as a [str]. *)
Fixpoint lit (s : string) : str :=
  match s with
  | EmptyString => []
  | String c s' => N_of_ascii c :: lit s'
  end.

Definition len (s : str) : Z := Z.of_nat (length s).

(** [s[:n]] for a non-negative [n]. *)
Definition slice_to (n : nat) (s : str) : str := take n s.

(** The code points [str.isspace] accepts, which are the ones
    [str.strip()] removes when it is called without an argument. *)
Definition isspace (c : N) : bool :=
  ((9 <=? c) && (c <=? 13) || (28 <=? c) && (c <=? 32)
   || (c =? 133) || (c =? 160) || (c =? 5760)
   || (8192 <=? c) && (c <=? 8202)
   || (c =? 8232) || (c =? 8233) || (c =? 8239) || (c =? 8287)
   || (c =? 12288))%N.

Fixpoint lstrip (s : str) : str :=
  match s with
  | [] => []
  | c :: s' => if isspace c then lstrip s' else s
  end.

Definition rstrip (s : str) : str := reverse (lstrip (reverse s)).

Definition strip (s : str) : str := rstrip (lstrip s).

(** [s.split(sep)] for a separator of one character: the pieces between
    the separators, at least one. *)
Fixpoint split (sep : N) (s : str) : list str :=
  match s with
  | [] => [[]]
  | c :: s' =>
      if (c =? sep)%N then [] :: split sep s'
      else match split sep s' with
           | piece :: pieces => (c :: piece) :: pieces
           | [] => [[c]]
           end
  end.

(** Truth value of a [str]: the empty string is false. *)
Definition truthy (s : str) : bool :=
  match s with [] => false | _ => true end.

(** [x or d] for an optional string ([None] and [""] are both false). *)
Definition or_else (x : option str) (d : str) : str :=
  match x with
  | Some s => if truthy s then s else d
  | None => d
  end.

End Py.

Arguments Py.lit : simpl never.

(** ** The payload of the quiz generator

    [generate_quiz_content] returns one of two dictionaries: an error
    indicator [{"error": ...}] or a payload [{"quiz": [...],
    "flashcards": [...]}]. *)

Record question := {
  question_text : str;
  options : list str;
  correctAnswer : str
}.

Record flashcard := {
  term : str;
  definition : str
}.

Inductive quiz_data :=
| error_dict (error : str)
| content_dict (quiz : list question) (flashcards : list flashcard).

Module Quiz.

(** The keys of the dictionary, in insertion order. *)
Definition keys (d : quiz_data) : list str :=
  match d with
  | error_dict _ => [Py.lit "error"]
  | content_dict _ _ => [Py.lit "quiz"; Py.lit "flashcards"]
  end.

Definition has_key (k : str) (d : quiz_data) : bool := bool_decide (k ∈ keys d).

(** [d.get("error")], [d.get("quiz")], [d.get("flashcards")]: [None]
    when the key is absent. *)
Definition get_error (d : quiz_data) : option str :=
  match d with error_dict e => Some e | content_dict _ _ => None end.

Definition get_quiz (d : quiz_data) : option (list question) :=
  match d with error_dict _ => None | content_dict q _ => Some q end.

Definition get_flashcards (d : quiz_data) : option (list flashcard) :=
  match d with error_dict _ => None | content_dict _ f => Some f end.

End Quiz.

(** ** The Firestore database *)

Module Firestore.

(** A stored note document; [timestamp] is the commit time the server put
    in place of [SERVER_TIMESTAMP], in microseconds. *)
Record note := {
  content : str;
  timestamp : Z;
  title : str;
  user_id : str
}.

Global Instance note_eq_dec : EqDecision note.
Proof. solve_decision. Defined.

(** The fields [save_note] sends; the timestamp field holds the
    [SERVER_TIMESTAMP] sentinel and is filled in by the server. *)
Record note_fields := {
  f_content : str;
  f_title : str;
  f_user_id : str
}.

Definition stamp (f : note_fields) (ts : Z) : note :=
  {| content := f_content f; timestamp := ts;
     title := f_title f; user_id := f_user_id f |}.

(** A database maps a collection path to the documents of that
    collection, keyed by document ID. *)
Abbreviation collection := (gmap (list N) note).
Abbreviation database := (gmap (list N) (gmap (list N) note)).

Definition collection_at (path : str) (d : database) : collection :=
  default ∅ (d !! path).

(** The client splits a path at ["/"]; a collection path has an odd
    number of elements. *)
Definition path_elements (path : str) : list str := Py.split 47 path.

Definition is_collection_path (path : str) : bool :=
  Nat.odd (length (path_elements path)).

(** [doc_ref.set(data)]: creates the document, or replaces it when the
    ID is already taken. *)
Definition set_document (path id : str) (n : note) (d : database) : database :=
  <[path := <[id := n]> (collection_at path d)]> d.

(** Query order [order_by('timestamp', direction=DESCENDING)]: later
    timestamps first, equal timestamps by document ID, also descending. *)
Definition sort_key (doc : str * note) : Z * str := (timestamp doc.2, doc.1).

Definition newer_first (a b : str * note) : Prop :=
  lexico (sort_key b) (sort_key a) ∨ sort_key b = sort_key a.

Global Instance newer_first_dec a b : Decision (newer_first a b).
Proof. unfold newer_first. apply _. Defined.

Definition order_by_timestamp_descending
  (docs : list (str * note)) : list (str * note) :=
  merge_sort newer_first docs.

Definition limit (n : nat) (docs : list (str * note)) : list (str * note) :=
  take n docs.

(** [.to_dict()] of a document snapshot: its fields, without the ID. *)
Definition to_dict (doc : str * note) : note := doc.2.

End Firestore.

Export Firestore(note, content, timestamp, title, user_id).

(** ** Streamlit, the environment of a script run, and the world

    Layout calls (title, header, subheader, markdown, tabs, expander,
    write) only draw; they are left out, and of [st.columns] only the
    exception for an empty row is kept.  Alert boxes and buttons are
    recorded in the trace, in the order they are drawn. *)

(** [st.stop()] and [st.rerun()] raise script-control exceptions, which
    derive from [BaseException]: [except Exception] lets them through. *)
Inductive script_control := StopException | RerunException.

(** How a call ends: a value, a Python [Exception] (kept as its text,
    which is all the script uses), or a script-control exception. *)
Inductive outcome (A : Type) :=
| Returns (a : A)
| Raises (e : str)
| Control (c : script_control).
Arguments Returns {A} a.
Arguments Raises {A} e.
Arguments Control {A} c.

(** Answer of an external service. *)
Inductive reply (A : Type) :=
| Reply (a : A)
| Fault (e : str).
Arguments Reply {A} a.
Arguments Fault {A} e.

(** The Firestore client object returned by [firestore.client()]. *)
Inductive client := Client.

(** Buttons of the page.  The two action buttons are identified by their
    label; a load button by its key, the note's timestamp formatted
    [%Y%m%d%H%M%S], that is to the second; an answer button by its key
    [q{i}_opt{option}]. *)
Inductive widget :=
| save_button
| generate_button
| load_button (second : Z)
| option_button (i : nat) (option : str).

Global Instance widget_eq_dec : EqDecision widget.
Proof. solve_decision. Defined.

Inductive event :=
| st_error (body : str)
| st_warning (body : str)
| st_success (body : str)
| st_info (body : str)
| st_button (label : str)
| st_spinner (text : str)
| time_sleep (seconds : Z)
| firestore_set (path id : str) (data : Firestore.note_fields)
| firestore_stream (path : str).

(** Elements a cached function draws are stored with its result and
    drawn again when the result is served from the cache.  A spinner is
    gone when its block ends and is not among them. *)
Definition is_element (e : event) : bool :=
  match e with
  | st_error _ | st_warning _ | st_success _ | st_info _ | st_button _ => true
  | st_spinner _ | time_sleep _ | firestore_set _ _ _ | firestore_stream _ => false
  end.

(** What one run of the script gets from outside: the secrets, the
    answers of Firebase, and the state of the widgets. *)
Record run_env := {
  secret_app_id : option str;
  secret_firebase_config : option str;
  secret_initial_auth_token : option str;
  (** lines 24-30: parsing the configuration, creating the app and the client *)
  firebase_setup : reply client;
  (** [auth.verify_id_token(token)['uid']] *)
  verify_id_token : str → reply str;
  (** the ID [document()] generates; Firestore's auto-IDs do not collide
      with a document of the collection *)
  auto_id : gset str → str;
  auto_id_unused : ∀ ids, auto_id ids ∉ ids;
  (** the commit of a write: the server time it is stamped with, or the
      exception of a write that is refused and stores nothing *)
  commit : reply Z;
  (** the exception of a query that fails, if it does *)
  stream_fault : option str;
  (** text currently in the text area, if the user has typed any *)
  input_area : option str;
  clicked : widget → bool;
  (** texts of the exceptions Streamlit raises for a second widget with
      the same key and for [st.columns(0)] *)
  duplicate_widget_id : str;
  no_columns : str
}.

Record session := {
  notes_input : option str;
  active_tab : option str;
  (** [None]: the key is absent; [Some None]: it holds [None] *)
  quiz_result : option (option quiz_data)
}.

Record world := {
  firestore : Firestore.database;
  trace : list event;
  (** keys of the buttons drawn so far in the current run *)
  widgets : list widget;
  session_state : session;
  (** [st.cache_resource] entries of [initialize_firebase] and
      [authenticate_user] *)
  firebase_cache : option (option client * list event);
  user_cache : option (str * list event);
  (** [st.cache_data] entries of [generate_quiz_content], by argument *)
  quiz_cache : gmap str (quiz_data * list event)
}.

Definition log (es : list event) (w : world) : world :=
  {| firestore := firestore w; trace := trace w ++ es; widgets := widgets w;
     session_state := session_state w;
     firebase_cache := firebase_cache w; user_cache := user_cache w;
     quiz_cache := quiz_cache w |}.

Definition with_firestore (d : Firestore.database) (w : world) : world :=
  {| firestore := d; trace := trace w; widgets := widgets w;
     session_state := session_state w;
     firebase_cache := firebase_cache w; user_cache := user_cache w;
     quiz_cache := quiz_cache w |}.

Definition with_widgets (ws : list widget) (w : world) : world :=
  {| firestore := firestore w; trace := trace w; widgets := ws;
     session_state := session_state w;
     firebase_cache := firebase_cache w; user_cache := user_cache w;
     quiz_cache := quiz_cache w |}.

Definition with_session (s : session) (w : world) : world :=
  {| firestore := firestore w; trace := trace w; widgets := widgets w;
     session_state := s;
     firebase_cache := firebase_cache w; user_cache := user_cache w;
     quiz_cache := quiz_cache w |}.

Definition with_firebase_cache (c : option client * list event) (w : world) : world :=
  {| firestore := firestore w; trace := trace w; widgets := widgets w;
     session_state := session_state w;
     firebase_cache := Some c; user_cache := user_cache w;
     quiz_cache := quiz_cache w |}.

Definition with_user_cache (c : str * list event) (w : world) : world :=
  {| firestore := firestore w; trace := trace w; widgets := widgets w;
     session_state := session_state w;
     firebase_cache := firebase_cache w; user_cache := Some c;
     quiz_cache := quiz_cache w |}.

Definition with_quiz_cache (k : str) (c : quiz_data * list event) (w : world) : world :=
  {| firestore := firestore w; trace := trace w; widgets := widgets w;
     session_state := session_state w;
     firebase_cache := firebase_cache w; user_cache := user_cache w;
     quiz_cache := <[k := c]> (quiz_cache w) |}.

(** ** The script monad: environment, world, and three ways to end *)

Definition M (A : Type) : Type := run_env → world → outcome A * world.

Definition ret {A} (a : A) : M A := λ _ w, (Returns a, w).

Definition bind {A B} (m : M A) (k : A → M B) : M B := λ env w,
  match m env w with
  | (Returns a, w') => k a env w'
  | (Raises e, w') => (Raises e, w')
  | (Control c, w') => (Control c, w')
  end.

Notation "x <- m ;; k" := (bind m (λ x, k))
  (at level 100, m at next level, right associativity).
Notation "m ;;; k" := (bind m (λ _, k))
  (at level 100, right associativity).

Definition raise {A} (e : str) : M A := λ _ w, (Raises e, w).
Definition control {A} (c : script_control) : M A := λ _ w, (Control c, w).

(** [try: body  except Exception as e: handler e] *)
Definition try_except {A} (body : M A) (handler : str → M A) : M A := λ env w,
  match body env w with
  | (Raises e, w') => handler e env w'
  | r => r
  end.

Definition ask {A} (f : run_env → A) : M A := λ env w, (Returns (f env), w).
Definition get {A} (f : world → A) : M A := λ _ w, (Returns (f w), w).
Definition modify (f : world → world) : M unit := λ _ w, (Returns tt, f w).
Definition emit (e : event) : M unit := modify (log [e]).

Definition when (b : bool) (m : M unit) : M unit := if b then m else ret tt.

(** [for x in xs: body x] *)
Fixpoint for_each {A} (xs : list A) (body : A → M unit) : M unit :=
  match xs with
  | [] => ret tt
  | x :: xs' => body x ;;; for_each xs' body
  end.

(** [enumerate(xs)] *)
Definition enumerate {A} (xs : list A) : list (nat * A) :=
  zip (seq 0 (length xs)) xs.

(** A function under [st.cache_resource] / [st.cache_data]: on a hit the
    stored result is returned and its elements are drawn again, the body
    does not run; on a miss the body runs and, when it returns, its
    result is stored with the elements it drew. *)
Definition cached {A}
    (entry : world → option (A * list event))
    (store : A * list event → world → world)
    (body : M A) : M A := λ env w,
  match entry w with
  | Some (a, elements) => (Returns a, log elements w)
  | None =>
      match body env w with
      | (Returns a, w') =>
          (Returns a,
           store (a, filter (λ e, is_element e = true)
                       (drop (length (trace w)) (trace w'))) w')
      | r => r
      end
  end.

(** ** Streamlit and Firestore calls *)

Module st.

Definition error (body : str) : M unit := emit (st_error body).
Definition warning (body : str) : M unit := emit (st_warning body).
Definition success (body : str) : M unit := emit (st_success body).
Definition info (body : str) : M unit := emit (st_info body).

(** [with st.spinner(text): body] *)
Definition spinner {A} (text : str) (body : M A) : M A :=
  emit (st_spinner text) ;;; body.

(** [st.button(label, key=...)]: true in the run that follows a click. *)
Definition button (label : str) (key : widget) : M bool := λ env w,
  if bool_decide (key ∈ widgets w)
  then (Raises (duplicate_widget_id env), w)
  else (Returns (clicked env key),
        log [st_button label] (with_widgets (widgets w ++ [key]) w)).

(** [st.columns(n)] *)
Definition columns (n : nat) : M unit := λ env w,
  match n with
  | O => (Raises (no_columns env), w)
  | S _ => (Returns tt, w)
  end.

(** [st.text_area(..., value=value, key="input_area")] *)
Definition text_area (value : str) : M str :=
  ask (λ env, default value (input_area env)).

Definition stop {A} : M A := control StopException.
Definition rerun {A} : M A := control RerunException.

End st.

(** The module-level names of the script. *)
Record globals := {
  APP_ID : str;
  db : option client;
  USER_ID : str;
  NOTES_COLLECTION_PATH : str
}.

(** [db.collection(path)]: an attribute of the client, and [db] may be
    [None]; the client refuses a path with an even number of elements. *)
Definition db_collection (db : option client) (path : str) : M str :=
  match db with
  | Some Client =>
      if Firestore.is_collection_path path then ret path
      else raise (Py.lit "A collection must have an odd number of path elements")
  | None => raise (Py.lit "'NoneType' object has no attribute 'collection'")
  end.

(** [collection.document()]: a reference with an auto-generated ID. *)
Definition document (path : str) : M (str * str) := λ env w,
  (Returns (path, auto_id env (dom (Firestore.collection_at path (firestore w)))), w).

(** [doc_ref.set(data)] *)
Definition doc_set (doc_ref : str * str) (data : Firestore.note_fields) : M unit :=
  λ env w,
  let w1 := log [firestore_set doc_ref.1 doc_ref.2 data] w in
  match commit env with
  | Reply ts =>
      (Returns tt,
       with_firestore
         (Firestore.set_document doc_ref.1 doc_ref.2 (Firestore.stamp data ts)
            (firestore w1)) w1)
  | Fault e => (Raises e, w1)
  end.

(** [collection.order_by('timestamp', direction=DESCENDING).limit(10).stream()] *)
Definition stream (path : str) : M (list (str * note)) := λ env w,
  let w1 := log [firestore_stream path] w in
  match stream_fault env with
  | Some e => (Raises e, w1)
  | None =>
      (Returns
         (Firestore.limit 10
            (Firestore.order_by_timestamp_descending
               (map_to_list (Firestore.collection_at path (firestore w))))),
       w1)
  end.

(** ** The script *)

Definition initialize_firebase_body : M (option client) :=
  try_except
    (r <- ask firebase_setup ;;
     match r with
     | Reply c => ret (Some c)
     | Fault e => raise e
     end)
    (λ e,
     st.error (Py.lit "Error initializing Firebase. Check configuration. Details: " ++ e) ;;;
     ret None).

Definition initialize_firebase : M (option client) :=
  cached firebase_cache with_firebase_cache initialize_firebase_body.

Definition auth_failed : str := Py.lit "auth-failed".

Definition authenticate_user_body : M str :=
  try_except
    (token <- ask secret_initial_auth_token ;;
     if Py.truthy (default [] token)
     then
       r <- ask (λ env, verify_id_token env (default [] token)) ;;
       match r with
       | Reply uid => ret uid
       | Fault e => raise e
       end
     else
       st.warning (Py.lit "No initial auth token found. Using a default user ID.") ;;;
       ret (Py.lit "streamlit-anon-user"))
    (λ e,
     st.error (Py.lit "Authentication failed. Details: " ++ e) ;;;
     ret auth_failed).

Definition authenticate_user : M str :=
  cached user_cache with_user_cache authenticate_user_body.

Definition notes_collection_path (app_id user : str) : str :=
  Py.lit "artifacts/" ++ app_id ++ Py.lit "/users/" ++ user ++ Py.lit "/study_notes".

Definition note_title (stripped : str) : str :=
  Py.slice_to 50 stripped ++ (if 50 <? Py.len stripped then Py.lit "..." else Py.lit "").

Definition save_note (g : globals) (notes_content : str) : M unit :=
  if negb (bool_decide (is_Some (db g))) || negb (Py.truthy (Py.strip notes_content))
  then st.error (Py.lit "Cannot save empty notes.")
  else
    try_except
      (collection <- db_collection (db g) (NOTES_COLLECTION_PATH g) ;;
       doc_ref <- document collection ;;
       doc_set doc_ref
         {| Firestore.f_content := Py.strip notes_content;
            Firestore.f_title := note_title (Py.strip notes_content);
            Firestore.f_user_id := USER_ID g |} ;;;
       st.success (Py.lit "Notes saved successfully!"))
      (λ e, st.error (Py.lit "Error saving notes: " ++ e)).

Definition placeholder : quiz_data :=
  content_dict
    [ {| question_text :=
           Py.lit "Q1: What is the primary benefit of using Streamlit for this project?";
         options := [Py.lit "A. Full control over CSS";
                     Py.lit "B. Fast development using only Python";
                     Py.lit "C. Automated Firebase setup"];
         correctAnswer := Py.lit "B. Fast development using only Python" |};
      {| question_text := Py.lit "Q2: Where does the saved note data reside?";
         options := [Py.lit "A. Local Storage";
                     Py.lit "B. Firestore database";
                     Py.lit "C. An internal Streamlit cache"];
         correctAnswer := Py.lit "B. Firestore database" |} ]
    [ {| term := Py.lit "Streamlit";
         definition := Py.lit "A Python library used to create interactive web applications for data science and machine learning quickly." |};
      {| term := Py.lit "Firestore";
         definition := Py.lit "A flexible, scalable NoSQL cloud database used for storing the user's study notes." |} ].

Definition notes_required : quiz_data :=
  error_dict (Py.lit "Notes required for generation.").

Definition generate_quiz_content_body (notes_content : str) : M quiz_data :=
  if negb (Py.truthy (Py.strip notes_content))
  then ret notes_required
  else
    st.spinner (Py.lit "Generating AI Content...") (emit (time_sleep 2)) ;;;
    ret placeholder.

Definition generate_quiz_content (notes_content : str) : M quiz_data :=
  cached (λ w, quiz_cache w !! notes_content) (with_quiz_cache notes_content)
    (generate_quiz_content_body notes_content).

(** The flashcards are drawn in expanders, which is layout. *)
Definition display_quiz (quiz_data : quiz_data) : M unit :=
  if Py.truthy (default [] (Quiz.get_error quiz_data))
  then st.error (default [] (Quiz.get_error quiz_data))
  else
    match Quiz.get_quiz quiz_data with
    | Some ((_ :: _) as quiz) =>
        for_each (enumerate quiz) (λ iq,
          st.columns (length (options iq.2)) ;;;
          for_each (options iq.2) (λ option,
            pressed <- st.button option (option_button iq.1 option) ;;
            when pressed
              (if bool_decide (option = correctAnswer iq.2)
               then st.success (Py.lit "Correct!")
               else st.error (Py.lit "Incorrect. The answer is: " ++ correctAnswer iq.2))))
    | _ => ret tt
    end.

(** Label and key of the button that loads a saved note; the label
    starts with the four code points the source file has there. *)
Definition load_label (n : note) : str :=
  [0xF8FF; 0xFC; 0xEC; 0xD6]%N ++ Py.lit " " ++ title n ++ Py.lit " - Load".

Definition load_key (n : note) : widget := load_button (timestamp n `div` 1000000).

Definition tab_notes : str := Py.lit "Notes & Input".
Definition tab_generated : str := Py.lit "Generated Quiz/Flashcards".

Definition load_note (n : note) (s : session) : session :=
  {| notes_input := Some (content n); active_tab := Some tab_notes;
     quiz_result := quiz_result s |}.

(** Lines 172 and 173 of [display_saved_notes]: the query, and the
    dictionaries of the snapshots it yields. *)
Definition notes_stream (g : globals) : M (list (str * note)) :=
  collection <- db_collection (db g) (NOTES_COLLECTION_PATH g) ;;
  stream collection.

Definition notes_list (g : globals) : M (list note) :=
  snapshots <- notes_stream g ;;
  ret (Firestore.to_dict <$> snapshots).

Definition display_saved_notes (g : globals) : M unit :=
  try_except
    (notes_list <- notes_list g ;;
     if bool_decide (notes_list = [])
     then st.info (Py.lit "No notes saved yet. Use the area above to paste your study material!")
     else
       for_each notes_list (λ note,
         pressed <- st.button (load_label note) (load_key note) ;;
         when pressed
           (modify (λ w, with_session (load_note note (session_state w)) w) ;;;
            st.rerun)))
    (λ e, st.error (Py.lit "Error retrieving notes: " ++ e)).

(** [if key not in st.session_state: st.session_state.key = ...] for
    the three keys of the page. *)
Definition init_session (s : session) : session :=
  {| notes_input := Some (default [] (notes_input s));
     active_tab := Some (default tab_notes (active_tab s));
     quiz_result := Some (default None (quiz_result s)) |}.

Definition set_notes_input (x : str) (s : session) : session :=
  {| notes_input := Some x; active_tab := active_tab s;
     quiz_result := quiz_result s |}.

Definition set_generated (r : quiz_data) (s : session) : session :=
  {| notes_input := notes_input s; active_tab := Some tab_generated;
     quiz_result := Some (Some r) |}.

Definition save_label : str :=
  [0xF8FF; 0xFC; 0xED; 0xE6]%N ++ Py.lit " Save Notes to Firestore".
Definition generate_label : str :=
  [0xF8FF; 0xFC; 0xF6; 0xC4]%N ++ Py.lit " Generate Quiz & Flashcards (AI)".

Definition main (g : globals) : M unit :=
  st.info (Py.lit "User ID: `" ++ USER_ID g
           ++ Py.lit "` (Data saved to Firestore for this ID)") ;;;
  modify (λ w, with_session (init_session (session_state w)) w) ;;;
  value <- get (λ w, default [] (notes_input (session_state w))) ;;
  notes_content <- st.text_area value ;;
  modify (λ w, with_session (set_notes_input notes_content (session_state w)) w) ;;;
  save <- st.button save_label save_button ;;
  when save (save_note g notes_content) ;;;
  generate <- st.button generate_label generate_button ;;
  when generate
    (if negb (Py.truthy (Py.strip notes_content))
     then st.warning (Py.lit "Please enter some notes first.")
     else
       r <- generate_quiz_content notes_content ;;
       modify (λ w, with_session (set_generated r (session_state w)) w) ;;;
       st.rerun) ;;;
  display_saved_notes g ;;;
  result <- get (λ w, quiz_result (session_state w)) ;;
  match result with
  | Some (Some quiz_data) => display_quiz quiz_data
  | _ =>
      st.info (Py.lit "No content generated yet. Go to the 'Notes & Input' tab to start.")
  end.

(** One run of the script, top to bottom: the module-level statements,
    then [main()].  A run starts with no widget registered. *)
Definition script : M unit :=
  modify (with_widgets []) ;;;
  app_id <- ask (λ env, Py.or_else (secret_app_id env) (Py.lit "default-app-id")) ;;
  db <- initialize_firebase ;;
  user <- authenticate_user ;;
  (if bool_decide (user = auth_failed) then st.stop else ret tt) ;;;
  main {| APP_ID := app_id; db := db; USER_ID := user;
          NOTES_COLLECTION_PATH := notes_collection_path app_id user |}.

(** The life of the application: one run per user interaction. *)
Fixpoint runs (envs : list run_env) (w : world) : world :=
  match envs with
  | [] => w
  | env :: envs' => runs envs' (script env w).2
  end.

(** The world a server process starts in. *)
Definition initial (d : Firestore.database) : world :=
  {| firestore := d; trace := []; widgets := [];
     session_state :=
       {| notes_input := None; active_tab := None; quiz_result := None |};
     firebase_cache := None; user_cache := None; quiz_cache := ∅ |}.

(** ** Notions used in the statements, and example inputs *)

Definition all_space (s : str) : Prop := Forall (λ c, Py.isspace c = true) s.

(** A string neither starts nor ends with whitespace. *)
Definition trimmed (s : str) : Prop :=
  (∀ c, head s = Some c → Py.isspace c = false)
  ∧ (∀ c, last s = Some c → Py.isspace c = false).

(** The dictionary [save_note] passes to [set]. *)
Definition sent_fields (g : globals) (notes_content : str) : Firestore.note_fields :=
  {| Firestore.f_content := Py.strip notes_content;
     Firestore.f_title := note_title (Py.strip notes_content);
     Firestore.f_user_id := USER_ID g |}.

(** The ID [document()] generates in the user's collection. *)
Definition new_id (g : globals) (env : run_env) (w : world) : str :=
  auto_id env
    (dom (Firestore.collection_at (NOTES_COLLECTION_PATH g) (firestore w))).

Definition cannot_save : event := st_error (Py.lit "Cannot save empty notes.").

Definition init_report (e : str) : event :=
  st_error (Py.lit "Error initializing Firebase. Check configuration. Details: " ++ e).

Definition auth_report (e : str) : event :=
  st_error (Py.lit "Authentication failed. Details: " ++ e).

(** The notes collection of the user the script runs for. *)
Definition user_notes (g : globals) (w : world) : gmap str note :=
  Firestore.collection_at (NOTES_COLLECTION_PATH g) (firestore w).

(** [save_note] leaves the database with exactly one record more, under
    an ID that was free, titled with the first 50 characters of the
    stripped content, followed by ["..."] exactly when the stripped
    content has more than 50 characters. *)
Definition persists_one_titled_record
    (g : globals) (notes_content : str) (env : run_env) (w : world) : Prop :=
  let stripped := Py.strip notes_content in
  let w' := (save_note g notes_content env w).2 in
  ∃ id n,
    user_notes g w !! id = None
    ∧ firestore w'
      = <[NOTES_COLLECTION_PATH g := <[id := n]> (user_notes g w)]> (firestore w)
    ∧ (50 < Py.len stripped → title n = Py.slice_to 50 stripped ++ Py.lit "...")
    ∧ (Py.len stripped ≤ 50 → title n = Py.slice_to 50 stripped).

(** Document [id] of collection [path] holds [n] in [w'] and did not in [w]. *)
Definition written (w w' : world) (path id : str) (n : note) : Prop :=
  Firestore.collection_at path (firestore w') !! id = Some n
  ∧ Firestore.collection_at path (firestore w) !! id ≠ Some n.

(** Every entry of the [st.cache_data] cache holds what the function
    body returns for the entry's argument. *)
Definition quiz_cache_sound (w : world) : Prop :=
  ∀ notes_content r elements,
    quiz_cache w !! notes_content = Some (r, elements) →
    ∀ env w0, (generate_quiz_content_body notes_content env w0).1 = Returns r.

(** Later elements are never newer than earlier ones. *)
Definition newest_first (l : list note) : Prop :=
  ∀ i j a b, (i < j)%nat → l !! i = Some a → l !! j = Some b →
             timestamp b ≤ timestamp a.

(** [m] keeps [P]: if [P] holds of the world before, it holds after,
    however [m] ends. *)
Definition preserves {A} (P : world → Prop) (m : M A) : Prop :=
  ∀ env w, P w → P (m env w).2.

(** [P] does not look at the trace, the widgets, the session or the
    resource caches. *)
Record ambient (P : world → Prop) : Prop := {
  ambient_log : ∀ es w, P w → P (log es w);
  ambient_widgets : ∀ ws w, P w → P (with_widgets ws w);
  ambient_session : ∀ s w, P w → P (with_session s w);
  ambient_firebase_cache : ∀ c w, P w → P (with_firebase_cache c w);
  ambient_user_cache : ∀ c w, P w → P (with_user_cache c w)
}.

(** [grows d d']: [d'] comes from [d] by creating documents under IDs
    that are free when they are created. *)
Inductive grows (d : Firestore.database) : Firestore.database → Prop :=
| grows_refl : grows d d
| grows_create d' path id n :
    grows d d' →
    Firestore.collection_at path d' !! id = None →
    grows d (Firestore.set_document path id n d').

(** An environment for examples: no secrets beyond the token, Firebase
    set up, nothing typed or clicked beyond what is given. *)
Definition example_env (token : option str) (verify : reply str)
    (commit : reply Z) (stream_fault : option str)
    (input : option str) (clicked : widget → bool) : run_env :=
  {| secret_app_id := None; secret_firebase_config := None;
     secret_initial_auth_token := token;
     firebase_setup := Reply Client;
     verify_id_token := λ _, verify;
     auto_id := fresh; auto_id_unused := is_fresh;
     commit := commit;
     stream_fault := stream_fault;
     input_area := input;
     clicked := clicked;
     duplicate_widget_id := Py.lit "DuplicateWidgetID";
     no_columns := Py.lit "StreamlitAPIException" |}.

Definition nothing_clicked : widget → bool := λ _, false.

Definition example_globals (db : option client) : globals :=
  {| APP_ID := Py.lit "default-app-id"; db := db;
     USER_ID := Py.lit "streamlit-anon-user";
     NOTES_COLLECTION_PATH :=
       notes_collection_path (Py.lit "default-app-id") (Py.lit "streamlit-anon-user") |}.

(** A write the server accepts and stamps, and a write it refuses. *)
Definition accepting : run_env :=
  example_env None (Reply []) (Reply 1700000000000000) None None nothing_clicked.
Definition refusing : run_env :=
  example_env None (Reply []) (Fault (Py.lit "503 Service Unavailable")) None None
    nothing_clicked.

(** The record the accepting example writes. *)
Definition example_note : note :=
  Firestore.stamp (sent_fields (example_globals (Some Client)) (Py.lit "  photosynthesis  "))
    1700000000000000.

(** A database with twelve notes of the example user, saved one second
    apart. *)
Definition example_doc (k : nat) : str * note :=
  ([N.of_nat (96 + k)],
   {| content := Py.lit "note"; timestamp := Z.of_nat k * 1000000;
      title := Py.lit "note"; user_id := Py.lit "streamlit-anon-user" |}).

Definition twelve_notes : Firestore.database :=
  {[ NOTES_COLLECTION_PATH (example_globals (Some Client))
     := list_to_map (example_doc <$> seq 1 12) ]}.

(** A token that the identity provider rejects. *)
Definition rejected_token : run_env :=
  example_env (Some (Py.lit "expired")) (Fault (Py.lit "Token expired"))
    (Reply 1700000000000000) None (Some (Py.lit "photosynthesis"))
    (λ _, true).

(** Firebase cannot be set up, and the user saves a note all the same. *)
Definition no_database : run_env :=
  {| secret_app_id := None; secret_firebase_config := None;
     secret_initial_auth_token := None;
     firebase_setup := Fault (Py.lit "Invalid certificate");
     verify_id_token := λ _, Reply [];
     auto_id := fresh; auto_id_unused := is_fresh;
     commit := Reply 1700000000000000;
     stream_fault := None;
     input_area := Some (Py.lit "photosynthesis");
     clicked := λ key, bool_decide (key = save_button);
     duplicate_widget_id := Py.lit "DuplicateWidgetID";
     no_columns := Py.lit "StreamlitAPIException" |}.

(** The user types a note and clicks the save button. *)
Definition saving (text : str) (ts : Z) : run_env :=
  example_env None (Reply []) (Reply ts) None (Some text)
    (λ key, bool_decide (key = save_button)).

(** ** Notions used in the further properties *)

(** The alert [save_note] draws when a record is stored. *)
Definition notes_saved : event := st_success (Py.lit "Notes saved successfully!").

(** The globals of a run for [user] under [app_id]. *)
Definition globals_of (app_id : str) (handle : option client) (user : str) : globals :=
  {| APP_ID := app_id; db := handle; USER_ID := user;
     NOTES_COLLECTION_PATH := notes_collection_path app_id user |}.

(** What [display_quiz] may draw for question [i] of a quiz: the button
    of one of its options, "Correct!" when the button of its correct
    answer was clicked, or the correction when the button of another of
    its options was clicked. *)
Definition option_feedback (env : run_env) (i : nat) (q : question) (e : event) : Prop :=
  (∃ option, option ∈ options q ∧ e = st_button option)
  ∨ (e = st_success (Py.lit "Correct!")
     ∧ correctAnswer q ∈ options q
     ∧ clicked env (option_button i (correctAnswer q)) = true)
  ∨ (∃ option, option ∈ options q ∧ option ≠ correctAnswer q
       ∧ clicked env (option_button i option) = true
       ∧ e = st_error (Py.lit "Incorrect. The answer is: " ++ correctAnswer q)).

Definition quiz_feedback (env : run_env) (quiz : list question) (e : event) : Prop :=
  ∃ i q, quiz !! i = Some q ∧ option_feedback env i q e.

(** [w] differs from [w0] at most in what is drawn: same database, same
    session state, same caches. *)
Definition draws_only (w0 w : world) : Prop :=
  firestore w = firestore w0
  ∧ session_state w = session_state w0
  ∧ firebase_cache w = firebase_cache w0
  ∧ user_cache w = user_cache w0
  ∧ quiz_cache w = quiz_cache w0.

(** The ten latest of the twelve example notes, newest first. *)
Definition latest_ten : list note := (λ k, (example_doc k).2) <$> [12; 11; 10; 9; 8; 7; 6; 5; 4; 3]%nat.

(** Two notes of the example user saved within the same second. *)
Definition quick_note (id : str) (ts : Z) : str * note :=
  (id, {| content := Py.lit "note"; timestamp := ts;
          title := Py.lit "note"; user_id := Py.lit "streamlit-anon-user" |}).

Definition same_second_notes : Firestore.database :=
  {[ NOTES_COLLECTION_PATH (example_globals (Some Client))
     := list_to_map [quick_note (Py.lit "a") 5000000; quick_note (Py.lit "b") 5400000] ]}.

(** A token that verifies, for a user who types a note and clicks save. *)
Definition valid_token : run_env :=
  example_env (Some (Py.lit "good")) (Reply (Py.lit "alice"))
    (Reply 1700000000000000) None (Some (Py.lit "photosynthesis"))
    (λ key, bool_decide (key = save_button)).

(** The generator's cache is sound and the session holds no result other
    than the placeholder. *)
Definition only_placeholder (w : world) : Prop :=
  quiz_cache_sound w
  ∧ ∀ d, quiz_result (session_state w) = Some (Some d) → d = placeholder.

(** The user types a text and clicks the generate button. *)
Definition generating (text : str) : run_env :=
  example_env None (Reply []) (Reply 1700000000000000) None (Some text)
    (λ key, bool_decide (key = generate_button)).

(** The user clicks the load button of the note saved in [second]. *)
Definition loading (second : Z) : run_env :=
  example_env None (Reply []) (Reply 1700000000000000) None None
    (λ key, bool_decide (key = load_button second)).

(** Globals whose application ID holds a ["/"]: the collection path has
    six elements. *)
Definition slashed_globals : globals :=
  {| APP_ID := Py.lit "my/app"; db := Some Client;
     USER_ID := Py.lit "streamlit-anon-user";
     NOTES_COLLECTION_PATH :=
       notes_collection_path (Py.lit "my/app") (Py.lit "streamlit-anon-user") |}.

(** The number of ["/"] in a string. *)
Definition slashes (s : str) : nat := length (filter (λ c, c = 47%N) s).

(** * Properties *)

Example strip_example :
  Py.strip (Py.lit "  ab c  ") = Py.lit "ab c".
Proof. reflexivity. Qed.

Lemma bind_returns {A B} (m : M A) (k : A → M B) env w a w' :
  m env w = (Returns a, w') → bind m k env w = k a env w'.
Proof. unfold bind. by intros ->. Qed.

(** ** Stripping *)

Section Strip.

Implicit Types (s t : str) (c : N).

Lemma lstrip_split s :
  ∃ pre, s = pre ++ Py.lstrip s ∧ all_space pre
         ∧ ∀ c, head (Py.lstrip s) = Some c → Py.isspace c = false.
Proof.
  induction s as [|c s (pre & Hs & Hpre & Hhd)]; simpl.
  - exists []. split_and!; [done|constructor|done].
  - destruct (Py.isspace c) eqn:Hc.
    + exists (c :: pre). split_and!; [by rewrite Hs at 1|by constructor|done].
    + exists []. split_and!; [done|constructor|]. simpl. by intros ? [= <-].
Qed.

Lemma lstrip_nil s : Py.lstrip s = [] ↔ all_space s.
Proof.
  induction s as [|c s IH]; simpl.
  - split; [constructor|done].
  - destruct (Py.isspace c) eqn:Hc.
    + rewrite IH. split; [by constructor|by inversion 1].
    + split; [done|]. inversion 1; congruence.
Qed.

Lemma lstrip_suffix s : ∃ pre, s = pre ++ Py.lstrip s.
Proof. destruct (lstrip_split s) as (pre & ? & _). eauto. Qed.

Lemma rstrip_split s :
  ∃ post, s = Py.rstrip s ++ post ∧ all_space post
          ∧ ∀ c, last (Py.rstrip s) = Some c → Py.isspace c = false.
Proof.
  destruct (lstrip_split (reverse s)) as (pre & Hs & Hpre & Hhd).
  exists (reverse pre). unfold Py.rstrip. split_and!.
  - rewrite <-reverse_app, <-Hs. by rewrite reverse_involutive.
  - by apply Forall_reverse.
  - intros c. rewrite last_reverse. apply Hhd.
Qed.

Lemma rstrip_nil s : Py.rstrip s = [] ↔ all_space s.
Proof.
  unfold Py.rstrip. rewrite <-(reverse_nil (A:=N)) at 1.
  split.
  - intros H%(inj reverse). apply lstrip_nil in H.
    apply Forall_reverse in H. by rewrite reverse_involutive in H.
  - intros H. f_equal. apply lstrip_nil. by apply Forall_reverse.
Qed.

(** Removing trailing whitespace keeps the first character. *)
Lemma rstrip_head s c :
  Py.isspace c = false → head s = Some c → head (Py.rstrip s) = Some c.
Proof.
  intros Hc Hhd. destruct (rstrip_split s) as (post & Hs & Hpost & _).
  destruct (Py.rstrip s) as [|c' r] eqn:Hr.
  - simpl in Hs. subst post. destruct s as [|c0 s]; [done|].
    simpl in Hhd. injection Hhd as ->. inversion Hpost; congruence.
  - rewrite Hs in Hhd. done.
Qed.

(** [strip] removes a whitespace prefix and a whitespace suffix, and what
    is left starts and ends with a character that is not whitespace. *)
Lemma strip_split s :
  ∃ pre post, s = pre ++ Py.strip s ++ post
              ∧ all_space pre ∧ all_space post ∧ trimmed (Py.strip s).
Proof.
  destruct (lstrip_split s) as (pre & Hs & Hpre & Hhd).
  destruct (rstrip_split (Py.lstrip s)) as (post & Hl & Hpost & Hlast).
  exists pre, post. unfold Py.strip. split_and!; try done.
  - by rewrite <-Hl.
  - split; [|done]. intros c Hc.
    destruct (Py.lstrip s) as [|c0 l] eqn:El; [done|].
    specialize (Hhd c0 eq_refl).
    rewrite (rstrip_head (c0 :: l) c0 Hhd eq_refl) in Hc. congruence.
Qed.

(** The stripped form is empty exactly for the strings made of
    whitespace only, the empty string among them. *)
Lemma strip_nil s : Py.strip s = [] ↔ all_space s.
Proof.
  unfold Py.strip. rewrite rstrip_nil. split.
  - intros H. destruct (lstrip_split s) as (pre & Hs & Hpre & Hhd).
    destruct (Py.lstrip s) as [|c l] eqn:El; [by apply lstrip_nil|].
    specialize (Hhd c eq_refl). inversion H; congruence.
  - intros H. apply lstrip_nil in H. rewrite H. constructor.
Qed.

Lemma strip_truthy s : Py.truthy (Py.strip s) = false ↔ all_space s.
Proof. rewrite <-strip_nil. by destruct (Py.strip s). Qed.

End Strip.

(** ** The database under [set] *)

Section Database.

Implicit Types (d : Firestore.database) (path id : str) (n : note).

Lemma collection_at_set_document path id n d :
  Firestore.collection_at path (Firestore.set_document path id n d)
  = <[id := n]> (Firestore.collection_at path d).
Proof.
  unfold Firestore.set_document, Firestore.collection_at at 1.
  by rewrite lookup_insert_eq.
Qed.

Lemma collection_at_set_document_ne path path' id n d :
  path ≠ path' →
  Firestore.collection_at path' (Firestore.set_document path id n d)
  = Firestore.collection_at path' d.
Proof.
  intros Hne. unfold Firestore.set_document, Firestore.collection_at at 1 3.
  by rewrite lookup_insert_ne.
Qed.

(** A document stays as it is when another ID is set. *)
Lemma set_document_keeps path path' id id' n n' d :
  Firestore.collection_at path d !! id = None →
  Firestore.collection_at path' d !! id' = Some n' →
  Firestore.collection_at path' (Firestore.set_document path id n d) !! id' = Some n'.
Proof.
  intros Hfree Hdoc. destruct (decide (path = path')) as [<-|Hne].
  - rewrite collection_at_set_document, lookup_insert_ne; [done|congruence].
  - by rewrite collection_at_set_document_ne.
Qed.

End Database.

(** ** [save_note] *)

Section SaveNote.

Implicit Types (g : globals) (env : run_env) (w : world).
Implicit Types (notes_content e : str) (ts : Z).

Lemma new_id_free g env w :
  Firestore.collection_at (NOTES_COLLECTION_PATH g) (firestore w)
    !! new_id g env w = None.
Proof. apply not_elem_of_dom, auto_id_unused. Qed.

Lemma save_note_rejected g env w notes_content :
  db g = None ∨ Py.strip notes_content = [] →
  save_note g notes_content env w = (Returns tt, log [cannot_save] w).
Proof.
  unfold save_note. intros [-> | ->]; [done|].
  by rewrite orb_true_r.
Qed.

Lemma save_note_committed g env w notes_content c ts :
  db g = Some c →
  Firestore.is_collection_path (NOTES_COLLECTION_PATH g) = true →
  Py.strip notes_content ≠ [] → commit env = Reply ts →
  save_note g notes_content env w
  = (Returns tt,
     log [st_success (Py.lit "Notes saved successfully!")]
       (with_firestore
          (Firestore.set_document (NOTES_COLLECTION_PATH g) (new_id g env w)
             (Firestore.stamp (sent_fields g notes_content) ts) (firestore w))
          (log [firestore_set (NOTES_COLLECTION_PATH g) (new_id g env w)
                  (sent_fields g notes_content)] w))).
Proof.
  intros Hdb Hpath Hs Hcommit. unfold save_note. rewrite Hdb.
  destruct (Py.strip notes_content) as [|c0 s0] eqn:Es; [done|].
  destruct c. cbn -[note_title].
  unfold try_except, bind, db_collection, document, doc_set, ret.
  rewrite Hpath. cbn -[note_title].
  rewrite Hcommit. cbn -[note_title].
  unfold sent_fields, new_id. by rewrite Es.
Qed.

Lemma save_note_refused g env w notes_content c e :
  db g = Some c →
  Firestore.is_collection_path (NOTES_COLLECTION_PATH g) = true →
  Py.strip notes_content ≠ [] → commit env = Fault e →
  save_note g notes_content env w
  = (Returns tt,
     log [st_error (Py.lit "Error saving notes: " ++ e)]
       (log [firestore_set (NOTES_COLLECTION_PATH g) (new_id g env w)
               (sent_fields g notes_content)] w)).
Proof.
  intros Hdb Hpath Hs Hcommit. unfold save_note. rewrite Hdb.
  destruct (Py.strip notes_content) as [|c0 s0] eqn:Es; [done|].
  destruct c. cbn -[note_title].
  unfold try_except, bind, db_collection, document, doc_set, ret.
  rewrite Hpath. cbn -[note_title].
  rewrite Hcommit. cbn -[note_title].
  unfold sent_fields, new_id. by rewrite Es.
Qed.

(** A path with an even number of elements: the client raises before a
    request is sent. *)
Lemma save_note_bad_path g env w notes_content c :
  db g = Some c →
  Firestore.is_collection_path (NOTES_COLLECTION_PATH g) = false →
  Py.strip notes_content ≠ [] →
  save_note g notes_content env w
  = (Returns tt,
     log [st_error (Py.lit "Error saving notes: "
                    ++ Py.lit "A collection must have an odd number of path elements")]
       w).
Proof.
  intros Hdb Hpath Hs. unfold save_note. rewrite Hdb.
  destruct (Py.strip notes_content) as [|c0 s0] eqn:Es; [done|].
  destruct c. cbn -[note_title].
  unfold try_except, bind, db_collection. by rewrite Hpath.
Qed.

(** The four ways [save_note] goes. *)
Lemma save_note_cases g env w notes_content :
  save_note g notes_content env w = (Returns tt, log [cannot_save] w)
  ∨ save_note g notes_content env w
    = (Returns tt,
       log [st_error (Py.lit "Error saving notes: "
                      ++ Py.lit "A collection must have an odd number of path elements")]
         w)
  ∨ (∃ e,
       save_note g notes_content env w
       = (Returns tt,
          log [st_error (Py.lit "Error saving notes: " ++ e)]
            (log [firestore_set (NOTES_COLLECTION_PATH g) (new_id g env w)
                    (sent_fields g notes_content)] w)))
  ∨ (∃ ts,
       Py.strip notes_content ≠ [] ∧ commit env = Reply ts
       ∧ save_note g notes_content env w
         = (Returns tt,
            log [st_success (Py.lit "Notes saved successfully!")]
              (with_firestore
                 (Firestore.set_document (NOTES_COLLECTION_PATH g) (new_id g env w)
                    (Firestore.stamp (sent_fields g notes_content) ts) (firestore w))
                 (log [firestore_set (NOTES_COLLECTION_PATH g) (new_id g env w)
                         (sent_fields g notes_content)] w)))).
Proof.
  destruct (db g) as [c|] eqn:Hdb;
    [|left; by rewrite save_note_rejected by auto].
  destruct (decide (Py.strip notes_content = [])) as [Hs|Hs];
    [left; by rewrite save_note_rejected by auto|].
  destruct (Firestore.is_collection_path (NOTES_COLLECTION_PATH g)) eqn:Hpath;
    [|right; left; by apply (save_note_bad_path g env w notes_content c)].
  destruct (commit env) as [ts|e] eqn:Hcommit.
  - right. right. right. exists ts.
    by rewrite (save_note_committed g env w notes_content c ts).
  - right. right. left. exists e.
    by apply (save_note_refused g env w notes_content c e).
Qed.

(** Either the database is left as it was, or the input was accepted and
    exactly the document with the generated ID was set. *)
Lemma save_note_firestore g env w notes_content :
  firestore (save_note g notes_content env w).2 = firestore w
  ∨ ∃ ts, Py.strip notes_content ≠ []
      ∧ firestore (save_note g notes_content env w).2
        = Firestore.set_document (NOTES_COLLECTION_PATH g) (new_id g env w)
            (Firestore.stamp (sent_fields g notes_content) ts) (firestore w).
Proof.
  destruct (save_note_cases g env w notes_content)
    as [->|[->|[[e ->]|(ts & Hs & _ & ->)]]]; [by left..|].
  right. by exists ts.
Qed.

(** The cache of the generator is out of reach of [save_note]. *)
Lemma save_note_quiz_cache g env w notes_content :
  quiz_cache (save_note g notes_content env w).2 = quiz_cache w.
Proof.
  by destruct (save_note_cases g env w notes_content)
    as [->|[->|[[e ->]|(ts & _ & _ & ->)]]].
Qed.

End SaveNote.

(** ** Statements about [save_note] *)

Lemma note_title_long stripped :
  50 < Py.len stripped → note_title stripped = Py.slice_to 50 stripped ++ Py.lit "...".
Proof. intros H. unfold note_title. by rewrite (proj2 (Z.ltb_lt _ _) H). Qed.

Lemma note_title_short stripped :
  Py.len stripped ≤ 50 → note_title stripped = Py.slice_to 50 stripped.
Proof.
  intros H. unfold note_title. rewrite (proj2 (Z.ltb_ge _ _) H). apply app_nil_r.
Qed.

(** What [save_note] stores comes from the stripped input of an accepted
    call, under the generated ID of the user's collection. *)
Lemma save_note_written g notes_content env w path id n :
  written w (save_note g notes_content env w).2 path id n →
  Py.strip notes_content ≠ []
  ∧ path = NOTES_COLLECTION_PATH g ∧ id = new_id g env w
  ∧ ∃ ts, n = Firestore.stamp (sent_fields g notes_content) ts.
Proof.
  intros [Hnew Hold].
  destruct (save_note_firestore g env w notes_content) as [Heq|(ts & Hs & Heq)];
    rewrite Heq in Hnew; [done|].
  split; [done|].
  destruct (decide (NOTES_COLLECTION_PATH g = path)) as [<-|Hp];
    [|by rewrite collection_at_set_document_ne in Hnew].
  rewrite collection_at_set_document in Hnew.
  destruct (decide (new_id g env w = id)) as [<-|Hid];
    [|by rewrite lookup_insert_ne in Hnew].
  rewrite lookup_insert_eq in Hnew. injection Hnew as <-. eauto.
Qed.

(** C1, as amended: for every input whose stripped form is not empty,
    with an initialised database handle, a collection path that the
    client accepts (an odd number of elements) and a write that the
    server commits, [save_note] persists exactly one new record, titled
    with the first 50 characters of the stripped content, followed by
    ["..."] if and only if the stripped content is longer than 50
    characters. *)
Theorem save_note_persists_one_record g notes_content env w c ts :
  db g = Some c →
  Firestore.is_collection_path (NOTES_COLLECTION_PATH g) = true →
  Py.strip notes_content ≠ [] →
  commit env = Reply ts →
  persists_one_titled_record g notes_content env w.
Proof.
  intros Hdb Hpath Hs Hcommit. unfold persists_one_titled_record.
  rewrite (save_note_committed g env w notes_content c ts Hdb Hpath Hs Hcommit).
  exists (new_id g env w), (Firestore.stamp (sent_fields g notes_content) ts).
  split_and!.
  - apply new_id_free.
  - done.
  - apply note_title_long.
  - apply note_title_short.
Qed.

Lemma save_note_persists_one_record_witness :
  persists_one_titled_record (example_globals (Some Client))
    (Py.lit "  photosynthesis  ") accepting (initial ∅).
Proof.
  apply (save_note_persists_one_record _ _ accepting _ Client 1700000000000000);
    [reflexivity | reflexivity | by vm_compute | reflexivity].
Defined.

(** C1, as stated, fails when the server refuses the write: the input
    strips to a non-empty string and the handle is initialised, yet no
    record is added. *)
Lemma save_note_refused_counterexample :
  Py.strip (Py.lit "abc") ≠ []
  ∧ db (example_globals (Some Client)) = Some Client
  ∧ firestore (save_note (example_globals (Some Client)) (Py.lit "abc")
                 refusing (initial ∅)).2 = ∅
  ∧ ¬ persists_one_titled_record (example_globals (Some Client)) (Py.lit "abc")
        refusing (initial ∅).
Proof.
  assert (Hs : Py.strip (Py.lit "abc") ≠ []) by (by vm_compute).
  assert (He : firestore (save_note (example_globals (Some Client)) (Py.lit "abc")
                            refusing (initial ∅)).2 = ∅).
  { by rewrite (save_note_refused _ refusing _ _ Client
                  (Py.lit "503 Service Unavailable")). }
  split_and!; [done..|].
  intros (id & n & _ & Heq & _). rewrite He in Heq.
  symmetry in Heq. by apply insert_non_empty in Heq.
Qed.

(** C2: for every input that is empty or consists only of whitespace,
    [save_note] returns after showing the message "Cannot save empty
    notes." and leaves the database unchanged. *)
Theorem save_note_rejects_blank g notes_content env w :
  all_space notes_content →
  let w' := (save_note g notes_content env w).2 in
  (save_note g notes_content env w).1 = Returns tt
  ∧ firestore w' = firestore w
  ∧ trace w' = trace w ++ [st_error (Py.lit "Cannot save empty notes.")].
Proof.
  intros Hblank%strip_nil. by rewrite save_note_rejected by auto.
Qed.

Lemma save_note_rejects_blank_witness :
  let w' := (save_note (example_globals (Some Client)) (Py.lit "   ")
               accepting (initial ∅)).2 in
  (save_note (example_globals (Some Client)) (Py.lit "   ")
     accepting (initial ∅)).1 = Returns tt
  ∧ firestore w' = firestore (initial ∅)
  ∧ trace w' = trace (initial ∅) ++ [st_error (Py.lit "Cannot save empty notes.")].
Proof.
  apply (save_note_rejects_blank (example_globals (Some Client)) (Py.lit "   ")).
  repeat constructor.
Defined.

(** C8: without a database handle, [save_note] persists nothing and
    shows "Cannot save empty notes." for every input, exactly as it does
    for a blank input with a handle. *)
Theorem save_note_without_database g notes_content env w :
  db g = None →
  let w' := (save_note g notes_content env w).2 in
  firestore w' = firestore w
  ∧ trace w' = trace w ++ [st_error (Py.lit "Cannot save empty notes.")]
  ∧ ∀ g' blank, all_space blank →
      save_note g notes_content env w = save_note g' blank env w.
Proof.
  intros Hdb. rewrite save_note_rejected by auto. split_and!; [done..|].
  intros g' blank Hblank%strip_nil. by rewrite save_note_rejected by auto.
Qed.

Lemma save_note_without_database_witness :
  let w' := (save_note (example_globals None) (Py.lit "photosynthesis")
               accepting (initial ∅)).2 in
  firestore w' = firestore (initial ∅)
  ∧ trace w' = trace (initial ∅) ++ [st_error (Py.lit "Cannot save empty notes.")]
  ∧ ∀ g' blank, all_space blank →
      save_note (example_globals None) (Py.lit "photosynthesis") accepting (initial ∅)
      = save_note g' blank accepting (initial ∅).
Proof.
  apply (save_note_without_database (example_globals None)). reflexivity.
Defined.

(** C10: the content field of a record [save_note] writes is the input
    stripped: the input without a whitespace prefix and a whitespace
    suffix, neither starting nor ending with whitespace. *)
Theorem save_note_content_stripped g notes_content env w path id n :
  written w (save_note g notes_content env w).2 path id n →
  content n = Py.strip notes_content
  ∧ ∃ pre post, notes_content = pre ++ content n ++ post
      ∧ all_space pre ∧ all_space post ∧ trimmed (content n).
Proof.
  intros (_ & _ & _ & ts & ->)%save_note_written.
  split; [done|]. apply strip_split.
Qed.

Lemma save_note_content_stripped_witness :
  content example_note = Py.strip (Py.lit "  photosynthesis  ")
  ∧ ∃ pre post, Py.lit "  photosynthesis  " = pre ++ content example_note ++ post
      ∧ all_space pre ∧ all_space post ∧ trimmed (content example_note).
Proof.
  apply (save_note_content_stripped (example_globals (Some Client))
           (Py.lit "  photosynthesis  ") accepting (initial ∅)
           (NOTES_COLLECTION_PATH (example_globals (Some Client)))
           (new_id (example_globals (Some Client)) accepting (initial ∅))).
  split; vm_compute; [reflexivity | discriminate].
Defined.

(** ** [generate_quiz_content] *)

Lemma generate_quiz_content_body_blank notes_content env w :
  Py.strip notes_content = [] →
  generate_quiz_content_body notes_content env w = (Returns notes_required, w).
Proof. unfold generate_quiz_content_body. by intros ->. Qed.

Lemma generate_quiz_content_body_text notes_content env w :
  Py.strip notes_content ≠ [] →
  generate_quiz_content_body notes_content env w
  = (Returns placeholder,
     log [time_sleep 2] (log [st_spinner (Py.lit "Generating AI Content...")] w)).
Proof.
  unfold generate_quiz_content_body.
  by destruct (Py.strip notes_content).
Qed.

Lemma generate_quiz_content_body_returns notes_content env w :
  ∃ r w', generate_quiz_content_body notes_content env w = (Returns r, w')
          ∧ firestore w' = firestore w ∧ quiz_cache w' = quiz_cache w.
Proof.
  destruct (decide (Py.strip notes_content = [])) as [Hs|Hs].
  - rewrite generate_quiz_content_body_blank by done. eauto.
  - rewrite generate_quiz_content_body_text by done. eauto.
Qed.

(** Served from a sound cache or computed, the result is the body's. *)
Lemma generate_quiz_content_result notes_content env w :
  quiz_cache_sound w →
  (generate_quiz_content notes_content env w).1
  = (generate_quiz_content_body notes_content env w).1.
Proof.
  intros Hsound. unfold generate_quiz_content, cached.
  destruct (quiz_cache w !! notes_content) as [[r elements]|] eqn:Hhit.
  - simpl. symmetry. by eapply Hsound.
  - by destruct (generate_quiz_content_body_returns notes_content env w)
      as (r & w' & -> & _).
Qed.

Lemma generate_quiz_content_firestore notes_content env w :
  firestore (generate_quiz_content notes_content env w).2 = firestore w.
Proof.
  unfold generate_quiz_content, cached.
  destruct (quiz_cache w !! notes_content) as [[r elements]|]; [done|].
  by destruct (generate_quiz_content_body_returns notes_content env w)
    as (r & w' & -> & ? & _).
Qed.

Lemma generate_quiz_content_sound notes_content env w :
  quiz_cache_sound w →
  quiz_cache_sound (generate_quiz_content notes_content env w).2.
Proof.
  intros Hsound. unfold generate_quiz_content, cached.
  destruct (quiz_cache w !! notes_content) as [[r elements]|] eqn:Hhit; [done|].
  destruct (generate_quiz_content_body_returns notes_content env w)
    as (r & w' & Hbody & _ & Hcache).
  rewrite Hbody. intros s r' elements'. simpl. rewrite Hcache.
  destruct (decide (notes_content = s)) as [<-|Hne].
  - rewrite lookup_insert_eq. intros [= <- _] env' w0.
    destruct (decide (Py.strip notes_content = [])) as [Hs|Hs].
    + rewrite generate_quiz_content_body_blank in Hbody |- * by done.
      by injection Hbody as <- _.
    + rewrite generate_quiz_content_body_text in Hbody |- * by done.
      by injection Hbody as <- _.
  - rewrite lookup_insert_ne by done. apply Hsound.
Qed.

(** A process starts with an empty cache. *)
Lemma quiz_cache_sound_initial d : quiz_cache_sound (initial d).
Proof. intros s r elements. simpl. by rewrite lookup_empty. Qed.

(** C3, as amended: [generate_quiz_content] returns its one fixed
    placeholder structure for every input whose stripped form is not
    empty, and the dictionary with the ["error"] key for every input
    whose stripped form is empty, the empty string among them. *)
Theorem generate_quiz_content_by_stripped_input notes_content env w :
  quiz_cache_sound w →
  (Py.strip notes_content ≠ [] →
   (generate_quiz_content notes_content env w).1 = Returns placeholder)
  ∧ (Py.strip notes_content = [] →
     (generate_quiz_content notes_content env w).1 = Returns notes_required)
  ∧ (generate_quiz_content [] env w).1 = Returns notes_required
  ∧ Quiz.has_key (Py.lit "error") notes_required = true
  ∧ Quiz.has_key (Py.lit "error") placeholder = false.
Proof.
  intros Hsound. rewrite !generate_quiz_content_result by done. split_and!.
  - intros Hs. by rewrite generate_quiz_content_body_text.
  - intros Hs. by rewrite generate_quiz_content_body_blank.
  - done.
  - done.
  - done.
Qed.

Lemma generate_quiz_content_by_stripped_input_witness :
  (generate_quiz_content (Py.lit "mitosis") accepting (initial ∅)).1
  = Returns placeholder
  ∧ (generate_quiz_content [] accepting (initial ∅)).1 = Returns notes_required.
Proof.
  destruct (generate_quiz_content_by_stripped_input (Py.lit "mitosis") accepting
              (initial ∅) (quiz_cache_sound_initial ∅)) as (Htext & _ & Hempty & _).
  split; [apply Htext; by vm_compute | exact Hempty].
Defined.

(** C3, as stated, fails on a single space: the input is not empty, and
    the result is the error dictionary, not the placeholder. *)
Lemma generate_quiz_content_space_counterexample :
  Py.lit " " ≠ []
  ∧ (generate_quiz_content (Py.lit " ") accepting (initial ∅)).1
    = Returns notes_required
  ∧ (generate_quiz_content (Py.lit " ") accepting (initial ∅)).1
    ≠ Returns placeholder.
Proof. split_and!; [done | by vm_compute | by vm_compute]. Qed.

(** C9: for every non-empty input made of whitespace only,
    [generate_quiz_content] returns the error dictionary, which is not
    the placeholder. *)
Theorem generate_quiz_content_whitespace notes_content env w :
  quiz_cache_sound w →
  notes_content ≠ [] →
  all_space notes_content →
  (generate_quiz_content notes_content env w).1 = Returns notes_required
  ∧ Quiz.has_key (Py.lit "error") notes_required = true
  ∧ notes_required ≠ placeholder.
Proof.
  intros Hsound _ Hblank%strip_nil.
  rewrite generate_quiz_content_result by done.
  by rewrite generate_quiz_content_body_blank.
Qed.

Lemma generate_quiz_content_whitespace_witness :
  (generate_quiz_content [32; 9; 10]%N accepting (initial ∅)).1
  = Returns notes_required
  ∧ Quiz.has_key (Py.lit "error") notes_required = true
  ∧ notes_required ≠ placeholder.
Proof.
  apply (generate_quiz_content_whitespace [32; 9; 10]%N accepting (initial ∅)).
  - apply quiz_cache_sound_initial.
  - discriminate.
  - repeat constructor.
Defined.

(** ** The query of [display_saved_notes] *)

Section Query.

Global Instance newer_first_total : Total Firestore.newer_first.
Proof.
  intros a b. unfold Firestore.newer_first.
  destruct (trichotomy lexico (Firestore.sort_key a) (Firestore.sort_key b))
    as [?|[?|?]]; auto.
Qed.

Global Instance newer_first_transitive : Transitive Firestore.newer_first.
Proof.
  intros a b c. unfold Firestore.newer_first.
  intros [Hba|Hba] [Hcb|Hcb].
  - left. by etrans.
  - left. by rewrite Hcb.
  - left. by rewrite <-Hba.
  - right. congruence.
Qed.

Lemma newer_first_timestamp a b :
  Firestore.newer_first a b → timestamp b.2 ≤ timestamp a.2.
Proof.
  unfold Firestore.newer_first, Firestore.sort_key.
  intros [[Hlt|[Heq _]]|[= Heq _]]; simpl in *.
  - unfold lexico, Z_lexico in Hlt. lia.
  - lia.
  - lia.
Qed.

Lemma StronglySorted_lookup {A} (R : relation A) (l : list A) i j a b :
  StronglySorted R l → (i < j)%nat → l !! i = Some a → l !! j = Some b → R a b.
Proof.
  intros Hsorted. revert i j.
  induction Hsorted as [|x l Hsorted IH Hall]; intros i j Hij Ha Hb; [done|].
  destruct j as [|j]; [lia|]. simpl in Hb.
  destruct i as [|i]; simpl in Ha.
  - injection Ha as <-. rewrite Forall_forall in Hall.
    apply Hall. by eapply list_elem_of_lookup_2.
  - apply (IH i j); [lia|done..].
Qed.

(** The first [n] of a sorted list: they are sorted, everything left out
    comes after all of them, and something is left out only when [n]
    were taken. *)
Lemma take_sorted {A} (R : relation A) (n : nat) (l : list A) :
  StronglySorted R l →
  (length (take n l) ≤ n)%nat
  ∧ StronglySorted R (take n l)
  ∧ (∀ a b, a ∈ take n l → b ∈ drop n l → R a b)
  ∧ (drop n l ≠ [] → length (take n l) = n).
Proof.
  intros Hsorted. rewrite <-(take_drop n l) in Hsorted. split_and!.
  - rewrite length_take. lia.
  - by eapply StronglySorted_app_1_l.
  - intros a b. by eapply StronglySorted_app_1_elem_of.
  - intros Hrest. rewrite length_take.
    destruct (decide (length l ≤ n)%nat) as [Hle|]; [|lia].
    by rewrite drop_ge in Hrest.
Qed.

Lemma order_by_limit_spec (docs : list (str * note)) :
  let sorted := Firestore.order_by_timestamp_descending docs in
  let l := Firestore.to_dict <$> Firestore.limit 10 sorted in
  let older := Firestore.to_dict <$> drop 10 sorted in
  (length l ≤ 10)%nat
  ∧ newest_first l
  ∧ l ++ older ≡ₚ docs.*2
  ∧ (∀ a b, a ∈ l → b ∈ older → timestamp b ≤ timestamp a)
  ∧ (older ≠ [] → length l = 10%nat).
Proof.
  intros sorted l older.
  assert (Hsorted : StronglySorted Firestore.newer_first sorted)
    by (apply StronglySorted_merge_sort; apply _).
  destruct (take_sorted _ 10 sorted Hsorted) as (Hlen & Htake & Hcut & Hfull).
  subst l older. unfold Firestore.limit. split_and!.
  - by rewrite length_fmap.
  - intros i j a b Hij Ha Hb.
    apply (StronglySorted_lookup (λ a b, timestamp b ≤ timestamp a)
             (Firestore.to_dict <$> take 10 sorted) i j); [|done..].
    eapply StronglySorted_fmap; [|done].
    intros x y. apply newer_first_timestamp.
  - rewrite <-fmap_app, take_drop. subst sorted.
    unfold Firestore.order_by_timestamp_descending.
    by rewrite merge_sort_Permutation.
  - intros a b (x & -> & Hx)%list_elem_of_fmap (y & -> & Hy)%list_elem_of_fmap.
    apply newer_first_timestamp. by apply Hcut.
  - rewrite length_fmap. intros Hne. apply Hfull.
    intros Heq. apply Hne. by rewrite Heq.
Qed.

End Query.

(** ** What [display_saved_notes] draws *)

(** One turn of the loop over the notes draws the load button of the
    note, unless its key is taken; the loop goes on only when the button
    was drawn and not clicked. *)
Lemma load_button_drawn (n : note) env w :
  let turn :=
    (pressed <- st.button (load_label n) (load_key n) ;;
     when pressed
       (modify (λ w, with_session (load_note n (session_state w)) w) ;;;
        st.rerun)) env w in
  (turn.1 = Returns tt → trace turn.2 = trace w ++ [st_button (load_label n)])
  ∧ (trace turn.2 = trace w ∨ trace turn.2 = trace w ++ [st_button (load_label n)]).
Proof.
  intros turn.
  set (drawn := log [st_button (load_label n)]
                  (with_widgets (widgets w ++ [load_key n]) w)).
  assert (Hturn :
    turn = if bool_decide (load_key n ∈ widgets w)
           then (Raises (duplicate_widget_id env), w)
           else if clicked env (load_key n)
                then (Control RerunException,
                      with_session (load_note n (session_state drawn)) drawn)
                else (Returns tt, drawn)).
  { subst turn drawn. unfold bind at 1, st.button.
    case_bool_decide; [done|]. by destruct (clicked env (load_key n)). }
  rewrite Hturn. case_bool_decide; [simpl; split; [done|by left]|].
  destruct (clicked env (load_key n)); simpl; split; try done; by right.
Qed.

(** The loop draws the load buttons of a prefix of the notes, in order. *)
Lemma load_buttons_drawn (l : list note) env w :
  ∃ k,
    trace (for_each l (λ note,
             pressed <- st.button (load_label note) (load_key note) ;;
             when pressed
               (modify (λ w, with_session (load_note note (session_state w)) w) ;;;
                st.rerun)) env w).2
    = trace w ++ (st_button ∘ load_label <$> take k l).
Proof.
  revert w. induction l as [|n l IH]; intros w.
  - exists 0%nat. simpl. by rewrite app_nil_r.
  - cbn [for_each]. unfold bind at 1.
    destruct (load_button_drawn n env w) as [Hgo Hstop]. cbv zeta in Hgo, Hstop.
    destruct ((pressed <- st.button (load_label n) (load_key n) ;; _) env w)
      as [[[]|e|c] w1]; simpl in *.
    + destruct (IH w1) as [k Hk]. exists (S k).
      rewrite Hk, Hgo by done. simpl. by rewrite <-app_assoc.
    + destruct Hstop as [->| ->]; [exists 0%nat|exists 1%nat]; simpl;
        by rewrite ?app_nil_r.
    + destruct Hstop as [->| ->]; [exists 0%nat|exists 1%nat]; simpl;
        by rewrite ?app_nil_r.
Qed.

(** [display_saved_notes] starts with the query; after it, it draws load
    buttons for a prefix of the notes read, and at most one message. *)
Lemma display_saved_notes_drawn g env w :
  ∃ l k message,
    trace (display_saved_notes g env w).2
    = trace (notes_list g env w).2
      ++ (st_button ∘ load_label <$> take k l) ++ message
    ∧ ((notes_list g env w).1 = Returns l ∨ l = [])
    ∧ ∀ label, st_button label ∉ message.
Proof.
  assert (Hnone : ∀ label, st_button label ∉ []) by (intros; apply not_elem_of_nil).
  assert (Herror : ∀ e label, st_button label ∉ [st_error e])
    by (intros ?? [=]%list_elem_of_singleton).
  assert (Hinfo : ∀ e label, st_button label ∉ [st_info e])
    by (intros ?? [=]%list_elem_of_singleton).
  unfold display_saved_notes, try_except, bind at 1.
  destruct (notes_list g env w) as [[l|e|c] w1] eqn:Hread; simpl.
  - case_bool_decide as Hempty.
    + exists l, 0%nat,
        [st_info (Py.lit "No notes saved yet. Use the area above to paste your study material!")].
      split_and!; [done|by left|apply Hinfo].
    + destruct (load_buttons_drawn l env w1) as [k Hk].
      destruct (for_each l _ env w1) as [[[]|e|c] w2] eqn:Hloop; simpl in *.
      * exists l, k, []. rewrite app_nil_r. split_and!; [done|by left|done].
      * exists l, k, [st_error (Py.lit "Error retrieving notes: " ++ e)].
        rewrite Hk, <-app_assoc. split_and!; [done|by left|apply Herror].
      * exists l, k, []. rewrite app_nil_r. split_and!; [done|by left|done].
  - exists [], 0%nat, [st_error (Py.lit "Error retrieving notes: " ++ e)].
    split_and!; [done|by right|apply Herror].
  - exists [], 0%nat, []. rewrite app_nil_r. split_and!; [done|by right|done].
Qed.

(** C4: the query of [display_saved_notes] returns whenever the database
    handle is initialised, the client accepts the collection path (an odd
    number of elements) and the query does not fail; whatever it
    returns is at most ten of the user's saved notes, ordered by
    timestamp descending, with every note left out no newer than any
    note returned, and notes left out only when ten are returned; and the
    load buttons [display_saved_notes] draws are those of a prefix of
    that list, in its order. *)
Theorem display_saved_notes_reads_latest_ten g env w :
  (∀ c, db g = Some c →
        Firestore.is_collection_path (NOTES_COLLECTION_PATH g) = true →
        stream_fault env = None →
        ∃ l, (notes_list g env w).1 = Returns l)
  ∧ (∀ l, (notes_list g env w).1 = Returns l →
       (length l ≤ 10)%nat
       ∧ newest_first l
       ∧ ∃ older,
           l ++ older ≡ₚ (map_to_list (user_notes g w)).*2
           ∧ (∀ a b, a ∈ l → b ∈ older → timestamp b ≤ timestamp a)
           ∧ (older ≠ [] → length l = 10%nat))
  ∧ ∃ l k message,
      trace (display_saved_notes g env w).2
      = trace (notes_list g env w).2
        ++ (st_button ∘ load_label <$> take k l) ++ message
      ∧ ((notes_list g env w).1 = Returns l ∨ l = [])
      ∧ ∀ label, st_button label ∉ message.
Proof.
  split_and!; [| |apply display_saved_notes_drawn];
    unfold notes_list, notes_stream, bind, db_collection, stream, ret.
  - intros [] -> -> ->. simpl. eauto.
  - intros l. destruct (db g) as [[]|]; simpl; [|done].
    destruct (Firestore.is_collection_path (NOTES_COLLECTION_PATH g));
      simpl; [|done].
    destruct (stream_fault env); simpl; [done|].
    intros [= <-].
    destruct (order_by_limit_spec (map_to_list (user_notes g w)))
      as (? & ? & ? & ? & ?).
    split_and!; [done..|]. eexists. split_and!; done.
Qed.

Lemma display_saved_notes_reads_latest_ten_witness :
  ∃ l, (notes_list (example_globals (Some Client)) accepting
          (initial twelve_notes)).1 = Returns l
       ∧ (length l ≤ 10)%nat
       ∧ newest_first l.
Proof.
  destruct (display_saved_notes_reads_latest_ten (example_globals (Some Client))
              accepting (initial twelve_notes)) as (Hreturns & Hlatest & _).
  destruct (Hreturns Client eq_refl eq_refl eq_refl) as [l Hl].
  exists l. destruct (Hlatest l Hl) as (Hlen & Hnewest & _).
  by split_and!.
Defined.

(** ** Invariants of a script run *)

Section Preserves.

Context (P : world → Prop).

Lemma preserves_ret {A} (a : A) : preserves P (ret a).
Proof. by intros env w. Qed.

Lemma preserves_raise {A} e : preserves P (raise (A:=A) e).
Proof. by intros env w. Qed.

Lemma preserves_control {A} c : preserves P (control (A:=A) c).
Proof. by intros env w. Qed.

Lemma preserves_ask {A} (f : run_env → A) : preserves P (ask f).
Proof. by intros env w. Qed.

Lemma preserves_get {A} (f : world → A) : preserves P (get f).
Proof. by intros env w. Qed.

Lemma preserves_bind {A B} (m : M A) (k : A → M B) :
  preserves P m → (∀ a, preserves P (k a)) → preserves P (bind m k).
Proof.
  intros Hm Hk env w Hw. unfold bind. specialize (Hm env w Hw).
  destruct (m env w) as [[a|e|c] w']; simpl in *; [by apply Hk|done..].
Qed.

Lemma preserves_try_except {A} (body : M A) (handler : str → M A) :
  preserves P body → (∀ e, preserves P (handler e)) →
  preserves P (try_except body handler).
Proof.
  intros Hbody Hhandler env w Hw. unfold try_except.
  specialize (Hbody env w Hw).
  destruct (body env w) as [[a|e|c] w']; simpl in *; [done|by apply Hhandler|done].
Qed.

Lemma preserves_when b (m : M unit) : preserves P m → preserves P (when b m).
Proof. destruct b; [done|]. intros _. apply preserves_ret. Qed.

Lemma preserves_if {A} (b : bool) (m1 m2 : M A) :
  preserves P m1 → preserves P m2 → preserves P (if b then m1 else m2).
Proof. by destruct b. Qed.

Lemma preserves_for_each {A} (xs : list A) (body : A → M unit) :
  (∀ x, preserves P (body x)) → preserves P (for_each xs body).
Proof.
  intros Hbody. induction xs as [|x xs IH]; simpl.
  - apply preserves_ret.
  - by apply preserves_bind.
Qed.

Lemma preserves_modify (f : world → world) :
  (∀ w, P w → P (f w)) → preserves P (modify f).
Proof. intros Hf env w. apply Hf. Qed.

Lemma preserves_cached {A} entry store (body : M A) :
  (∀ es w, P w → P (log es w)) →
  (∀ c w, P w → P (store c w)) →
  preserves P body → preserves P (cached entry store body).
Proof.
  intros Hlog Hstore Hbody env w Hw. unfold cached.
  destruct (entry w) as [[a elements]|]; [by apply Hlog|].
  specialize (Hbody env w Hw).
  destruct (body env w) as [[a|e|c] w']; simpl in *; [by apply Hstore|done..].
Qed.

Hypothesis HP : ambient P.

Lemma preserves_emit e : preserves P (emit e).
Proof. apply preserves_modify. intros w. apply HP. Qed.

Lemma preserves_button label key : preserves P (st.button label key).
Proof.
  intros env w Hw. unfold st.button. case_bool_decide; [done|].
  simpl. by apply HP, HP.
Qed.

Lemma preserves_columns n : preserves P (st.columns n).
Proof. intros env w Hw. by destruct n. Qed.

Lemma preserves_db_collection db path : preserves P (db_collection db path).
Proof.
  unfold db_collection. destruct db as [[]|]; [|apply preserves_raise].
  destruct (Firestore.is_collection_path path);
    [apply preserves_ret|apply preserves_raise].
Qed.

Lemma preserves_stream path : preserves P (stream path).
Proof.
  intros env w Hw. unfold stream.
  destruct (stream_fault env); simpl; by apply HP.
Qed.

End Preserves.

(** Walks down a script: one rule per construct of the monad. *)
Ltac preserve_step :=
  first
    [ progress intros
    | apply preserves_bind | apply preserves_try_except | apply preserves_when
    | apply preserves_if | apply preserves_for_each
    | apply preserves_ret | apply preserves_raise | apply preserves_control
    | apply preserves_ask | apply preserves_get
    | apply preserves_emit; [assumption]
    | apply preserves_button; [assumption]
    | apply preserves_columns
    | apply preserves_db_collection
    | apply preserves_stream; [assumption]
    | apply preserves_modify; intros;
      match goal with H : ambient _ |- _ => by apply H end
    | match goal with
      | |- preserves _ (match ?x with _ => _ end) => destruct x
      end
    | assumption ].

Ltac preserve := repeat preserve_step.

Section PreservesScript.

Context (P : world → Prop) (HP : ambient P).

Lemma preserves_initialize_firebase : preserves P initialize_firebase.
Proof.
  apply preserves_cached; [apply HP..|].
  unfold initialize_firebase_body, st.error. preserve.
Qed.

Lemma preserves_authenticate_user : preserves P authenticate_user.
Proof.
  apply preserves_cached; [apply HP..|].
  unfold authenticate_user_body, st.error, st.warning. preserve.
Qed.

Lemma preserves_display_quiz quiz_data : preserves P (display_quiz quiz_data).
Proof.
  unfold display_quiz, st.error, st.success. preserve.
Qed.

Lemma preserves_notes_list g : preserves P (notes_list g).
Proof. unfold notes_list, notes_stream. preserve. Qed.

Lemma preserves_display_saved_notes g : preserves P (display_saved_notes g).
Proof.
  unfold display_saved_notes, st.info, st.error, st.rerun.
  apply preserves_try_except; [|preserve].
  apply preserves_bind; [apply preserves_notes_list|]. preserve.
Qed.

Hypothesis Hsave : ∀ g notes_content, preserves P (save_note g notes_content).
Hypothesis Hgenerate : ∀ notes_content, preserves P (generate_quiz_content notes_content).

Lemma preserves_main g : preserves P (main g).
Proof.
  unfold main, st.info, st.warning, st.text_area, st.rerun.
  repeat first
    [ apply Hsave | apply Hgenerate | apply preserves_display_saved_notes
    | apply preserves_display_quiz | preserve_step ].
Qed.

Lemma preserves_script : preserves P script.
Proof.
  unfold script, st.stop.
  repeat first
    [ apply preserves_initialize_firebase | apply preserves_authenticate_user
    | apply preserves_main | preserve_step ].
Qed.

Lemma preserves_runs envs w : P w → P (runs envs w).
Proof.
  revert w. induction envs as [|env envs IH]; intros w Hw; simpl; [done|].
  by apply IH, preserves_script.
Qed.

End PreservesScript.

(** ** Notes are only ever created *)

Lemma grows_keeps d d' path id n :
  grows d d' →
  Firestore.collection_at path d !! id = Some n →
  Firestore.collection_at path d' !! id = Some n.
Proof.
  induction 1 as [|d' path' id' n' _ IH Hfree]; [done|].
  intros Hdoc. by apply set_document_keeps, IH.
Qed.

Lemma grows_ambient d : ambient (λ w, grows d (firestore w)).
Proof. by split. Qed.

Lemma save_note_grows d g notes_content :
  preserves (λ w, grows d (firestore w)) (save_note g notes_content).
Proof.
  intros env w Hw.
  destruct (save_note_firestore g env w notes_content) as [->|(ts & _ & ->)];
    [done|].
  apply grows_create; [done|apply new_id_free].
Qed.

Lemma generate_quiz_content_grows d notes_content :
  preserves (λ w, grows d (firestore w)) (generate_quiz_content notes_content).
Proof. intros env w Hw. by rewrite generate_quiz_content_firestore. Qed.

(** C6: over any number of runs of the script, the database only grows
    by documents created under IDs that were free, so a note record that
    exists stays in place with the fields it has: it is neither updated
    nor deleted. *)
Theorem notes_never_updated_or_deleted envs w :
  grows (firestore w) (firestore (runs envs w))
  ∧ ∀ path id n,
      Firestore.collection_at path (firestore w) !! id = Some n →
      Firestore.collection_at path (firestore (runs envs w)) !! id = Some n.
Proof.
  assert (Hgrows : grows (firestore w) (firestore (runs envs w))).
  { apply (preserves_runs (λ w', grows (firestore w) (firestore w'))).
    - apply grows_ambient.
    - intros. apply save_note_grows.
    - intros. apply generate_quiz_content_grows.
    - constructor. }
  split; [done|]. intros path id n. by apply grows_keeps.
Qed.

Lemma notes_never_updated_or_deleted_witness :
  Firestore.collection_at (NOTES_COLLECTION_PATH (example_globals (Some Client)))
    (firestore (runs [saving (Py.lit "osmosis") 13000000;
                      saving (Py.lit "diffusion") 14000000]
                  (initial twelve_notes)))
  !! (example_doc 3).1
  = Some (example_doc 3).2.
Proof.
  apply (notes_never_updated_or_deleted
           [saving (Py.lit "osmosis") 13000000; saving (Py.lit "diffusion") 14000000]
           (initial twelve_notes)).
  by vm_compute.
Defined.

(** ** What the application writes *)

Lemma new_records_nonempty_ambient w0 :
  ambient (λ w, ∀ path id n, written w0 w path id n → content n ≠ []).
Proof. by split. Qed.

Lemma save_note_new_records_nonempty w0 g notes_content :
  preserves (λ w, ∀ path id n, written w0 w path id n → content n ≠ [])
    (save_note g notes_content).
Proof.
  intros env w Hw path id n [Hnew Hold].
  destruct (decide (Firestore.collection_at path (firestore w) !! id = Some n))
    as [Hbefore|Hbefore]; [by apply (Hw path id n)|].
  by destruct (save_note_written g notes_content env w path id n)
    as (Hs & _ & _ & ts & ->).
Qed.

Lemma generate_quiz_content_new_records_nonempty w0 notes_content :
  preserves (λ w, ∀ path id n, written w0 w path id n → content n ≠ [])
    (generate_quiz_content notes_content).
Proof.
  intros env w Hw path id n. unfold written.
  rewrite generate_quiz_content_firestore. apply Hw.
Qed.

(** C5: every record the application writes has a non-empty content
    field: the record of every call of [save_note] that stores one, and
    so every record that any number of runs of the script adds or
    changes. *)
Theorem written_content_nonempty :
  (∀ g notes_content env w path id n,
     written w (save_note g notes_content env w).2 path id n → content n ≠ [])
  ∧ (∀ envs w path id n,
       written w (runs envs w) path id n → content n ≠ []).
Proof.
  split.
  - intros g notes_content env w path id n
      (Hs & _ & _ & ts & ->)%save_note_written. done.
  - intros envs w.
    apply (preserves_runs (λ w', ∀ path id n, written w w' path id n → content n ≠ [])).
    + apply new_records_nonempty_ambient.
    + intros. apply save_note_new_records_nonempty.
    + intros. apply generate_quiz_content_new_records_nonempty.
    + by intros path id n [? ?].
Qed.

Lemma written_content_nonempty_witness : content example_note ≠ [].
Proof.
  apply (proj1 written_content_nonempty (example_globals (Some Client))
           (Py.lit "  photosynthesis  ") accepting (initial ∅)
           (NOTES_COLLECTION_PATH (example_globals (Some Client)))
           (new_id (example_globals (Some Client)) accepting (initial ∅))).
  split; vm_compute; [reflexivity | discriminate].
Defined.

(** ** The cache of the generator stays sound *)

Lemma quiz_cache_sound_ambient : ambient quiz_cache_sound.
Proof. by split. Qed.


(** Every world the application reaches has a sound cache. *)
Lemma quiz_cache_sound_runs envs w :
  quiz_cache_sound w → quiz_cache_sound (runs envs w).
Proof.
  apply preserves_runs.
  - apply quiz_cache_sound_ambient.
  - intros g s env w' Hw'. unfold quiz_cache_sound.
    by rewrite save_note_quiz_cache.
  - intros s env w' Hw'. by apply generate_quiz_content_sound.
Qed.

(** ** Failed authentication *)

(** [initialize_firebase] always returns, and touches nothing but the
    trace and its own cache entry. *)
Lemma initialize_firebase_returns env w :
  ∃ handle w1,
    initialize_firebase env w = (Returns handle, w1)
    ∧ firestore w1 = firestore w
    ∧ session_state w1 = session_state w
    ∧ quiz_cache w1 = quiz_cache w
    ∧ user_cache w1 = user_cache w.
Proof.
  unfold initialize_firebase, cached.
  destruct (firebase_cache w) as [[handle elements]|]; [by eauto 10|].
  unfold initialize_firebase_body, try_except, bind, ask.
  destruct (firebase_setup env) as [c|e]; simpl; by eauto 10.
Qed.

(** Firebase cannot be set up: the failure is reported, the handle is
    [None], and both are stored in the cache. *)
Lemma initialize_firebase_fails env w e :
  firebase_cache w = None → firebase_setup env = Fault e →
  initialize_firebase env w
  = (Returns None,
     with_firebase_cache (None, [init_report e]) (log [init_report e] w)).
Proof.
  intros Hcache Hsetup. unfold initialize_firebase, cached. rewrite Hcache.
  unfold initialize_firebase_body, try_except, bind, ask. rewrite Hsetup. simpl.
  by rewrite drop_app_length.
Qed.

(** A token whose verification raises: the body reports the failure and
    returns the marker, and both are stored in the cache. *)
Lemma authenticate_user_fails env w token e :
  secret_initial_auth_token env = Some token → token ≠ [] →
  verify_id_token env token = Fault e →
  user_cache w = None →
  authenticate_user env w
  = (Returns auth_failed,
     with_user_cache (auth_failed, [auth_report e]) (log [auth_report e] w)).
Proof.
  intros Htoken Hne Hverify Hcache. unfold authenticate_user, cached.
  rewrite Hcache.
  unfold authenticate_user_body, try_except, bind, ask. rewrite Htoken.
  destruct token as [|c token]; [done|]. simpl. rewrite Hverify. simpl.
  by rewrite drop_app_length.
Qed.

(** C7: when the verification of the token raises, [authenticate_user]
    reports the failure and returns its marker, and the run stops there:
    the script ends with [StopException] in the world that initialisation
    left, with the report drawn and the marker cached; the database, the
    session state and the generator cache are as before, so nothing was
    saved, fetched or generated. *)
Theorem authentication_failure_halts env w token e :
  secret_initial_auth_token env = Some token → token ≠ [] →
  verify_id_token env token = Fault e →
  user_cache w = None →
  let before := (initialize_firebase env (with_widgets [] w)).2 in
  let w' := (script env w).2 in
  (authenticate_user env before).1 = Returns auth_failed
  ∧ script env w
    = (Control StopException,
       with_user_cache (auth_failed, [auth_report e]) (log [auth_report e] before))
  ∧ trace w' = trace before ++ [auth_report e]
  ∧ firestore w' = firestore w
  ∧ session_state w' = session_state w
  ∧ quiz_cache w' = quiz_cache w.
Proof.
  intros Htoken Hne Hverify Hcache before w'. subst before w'.
  destruct (initialize_firebase_returns env (with_widgets [] w))
    as (handle & w1 & Hinit & Hfs & Hsession & Hquiz & Huser).
  assert (Hauth := authenticate_user_fails env w1 token e Htoken Hne Hverify
                     ltac:(by rewrite Huser)).
  assert (Hrun : script env w
                 = (Control StopException,
                    with_user_cache (auth_failed, [auth_report e])
                      (log [auth_report e] w1))).
  { unfold script.
    rewrite (bind_returns _ _ env w tt (with_widgets [] w)) by done.
    rewrite (bind_returns _ _ env _ _ (with_widgets [] w)) by done.
    rewrite (bind_returns _ _ env _ _ _ Hinit).
    rewrite (bind_returns _ _ env _ _ _ Hauth).
    by rewrite bool_decide_eq_true_2 by done. }
  rewrite Hrun, Hinit. simpl. by rewrite Hauth.
Qed.

Lemma authentication_failure_halts_witness :
  (script rejected_token (initial twelve_notes)).1 = Control StopException
  ∧ firestore (script rejected_token (initial twelve_notes)).2 = twelve_notes.
Proof.
  destruct (authentication_failure_halts rejected_token (initial twelve_notes)
              (Py.lit "expired") (Py.lit "Token expired")
              eq_refl ltac:(discriminate) eq_refl eq_refl)
    as (_ & Hrun & _ & Hfs & _).
  split; [by rewrite Hrun | exact Hfs].
Defined.

(** ** Examples *)

Example note_title_example :
  note_title (Py.lit "The mitochondrion is the powerhouse of the cell, they say.")
  = Py.lit "The mitochondrion is the powerhouse of the cell, t...".
Proof. reflexivity. Qed.

Example twelve_notes_read :
  timestamp <$> default [] (match (notes_list (example_globals (Some Client))
                                     accepting (initial twelve_notes)).1 with
                            | Returns l => Some l
                            | _ => None
                            end)
  = [12000000; 11000000; 10000000; 9000000; 8000000;
     7000000; 6000000; 5000000; 4000000; 3000000].
Proof. by vm_compute. Qed.

Example rejected_token_trace :
  script rejected_token (initial twelve_notes)
  = (Control StopException,
     with_user_cache (auth_failed, [auth_report (Py.lit "Token expired")])
       (log [auth_report (Py.lit "Token expired")]
          (with_firebase_cache (Some Client, []) (initial twelve_notes)))).
Proof. reflexivity. Qed.

Example two_saves_add_two_notes :
  size (user_notes (example_globals (Some Client))
          (runs [saving (Py.lit "osmosis") 13000000;
                 saving (Py.lit "diffusion") 14000000] (initial twelve_notes)))
  = 14%nat.
Proof. by vm_compute. Qed.

Example save_without_database_run :
  let w' := (script no_database (initial twelve_notes)).2 in
  firestore w' = twelve_notes
  ∧ st_error (Py.lit "Cannot save empty notes.") ∈ trace w'.
Proof. split; [reflexivity|]. vm_compute. set_solver. Qed.

(** * Further properties *)

(** ** Stripping twice *)

Lemma lstrip_trimmed (s : str) :
  (∀ c, head s = Some c → Py.isspace c = false) → Py.lstrip s = s.
Proof.
  destruct s as [|c s]; [done|]. intros H. simpl. by rewrite (H c eq_refl).
Qed.

Lemma rstrip_trimmed (s : str) :
  (∀ c, last s = Some c → Py.isspace c = false) → Py.rstrip s = s.
Proof.
  intros H. unfold Py.rstrip. rewrite lstrip_trimmed.
  - apply reverse_involutive.
  - intros c. rewrite head_reverse. apply H.
Qed.

Lemma strip_strip (s : str) : Py.strip (Py.strip s) = Py.strip s.
Proof.
  destruct (strip_split s) as (pre & post & _ & _ & _ & Hhead & Hlast).
  unfold Py.strip at 1. rewrite lstrip_trimmed by done. by apply rstrip_trimmed.
Qed.

Lemma note_title_length (stripped : str) : Py.len (note_title stripped) ≤ 53.
Proof.
  unfold note_title, Py.len, Py.slice_to. rewrite length_app, length_take.
  destruct (50 <? Z.of_nat (length stripped));
    [change (length (Py.lit "...")) with 3%nat
    |change (length (Py.lit "")) with 0%nat]; lia.
Qed.

Lemma note_title_whole (stripped : str) :
  Py.len stripped ≤ 50 → note_title stripped = stripped.
Proof.
  intros H. rewrite note_title_short by done. apply take_ge.
  unfold Py.len in H. lia.
Qed.

(** ** More on [save_note] *)

(** X1: whatever the database handle, the input and the answer of the
    store, [save_note] returns normally and draws exactly one alert after
    at most one write request: the success alert together with a new
    record in the user's collection, or an error alert with the database
    unchanged. *)
Theorem save_note_reports_outcome g notes_content env w :
  let w' := (save_note g notes_content env w).2 in
  (save_note g notes_content env w).1 = Returns tt
  ∧ ∃ requests alert,
      trace w' = trace w ++ requests ++ [alert]
      ∧ (requests = []
         ∨ ∃ id, requests = [firestore_set (NOTES_COLLECTION_PATH g) id
                               (sent_fields g notes_content)])
      ∧ ((alert = notes_saved
          ∧ ∃ id n, user_notes g w !! id = None ∧ user_notes g w' !! id = Some n)
         ∨ ((∃ m, alert = st_error m) ∧ firestore w' = firestore w)).
Proof.
  destruct (save_note_cases g env w notes_content)
    as [->|[->|[[e ->]|(ts & Hs & Hcommit & ->)]]].
  - split; [done|].
    exists [], cannot_save. split_and!; [done|by left|right; by eauto].
  - split; [done|].
    eexists [], _. split_and!; [done|by left|right; by eauto].
  - split; [done|]. eexists [_], _. split_and!.
    + simpl. by rewrite <-app_assoc.
    + right. by eexists.
    + right. by eauto.
  - split; [done|]. eexists [_], notes_saved. split_and!.
    + simpl. by rewrite <-app_assoc.
    + right. by eexists.
    + left. split; [done|].
      exists (new_id g env w), (Firestore.stamp (sent_fields g notes_content) ts).
      split; [apply new_id_free|]. unfold user_notes. simpl.
      by rewrite collection_at_set_document, lookup_insert_eq.
Qed.

(** X2: when the write of an accepted input fails, nothing is stored and
    the last thing drawn is the error alert that carries the text of the
    exception: that of the store when the client accepts the collection
    path and the store refuses the write, and that of the client, with no
    request sent, when the path has an even number of elements. *)
Theorem save_note_refused_shows_error g notes_content env w c :
  db g = Some c → Py.strip notes_content ≠ [] →
  let w' := (save_note g notes_content env w).2 in
  (∀ e, Firestore.is_collection_path (NOTES_COLLECTION_PATH g) = true →
        commit env = Fault e →
        (save_note g notes_content env w).1 = Returns tt
        ∧ firestore w' = firestore w
        ∧ last (trace w') = Some (st_error (Py.lit "Error saving notes: " ++ e)))
  ∧ (Firestore.is_collection_path (NOTES_COLLECTION_PATH g) = false →
     (save_note g notes_content env w).1 = Returns tt
     ∧ firestore w' = firestore w
     ∧ trace w'
       = trace w
         ++ [st_error (Py.lit "Error saving notes: "
                       ++ Py.lit "A collection must have an odd number of path elements")]).
Proof.
  intros Hdb Hs. split.
  - intros e Hpath Hcommit.
    rewrite (save_note_refused g env w notes_content c e) by done.
    simpl. split_and!; [done..|]. by rewrite last_snoc.
  - intros Hpath. by rewrite (save_note_bad_path g env w notes_content c).
Qed.

Lemma save_note_refused_shows_error_witness :
  (let w' := (save_note (example_globals (Some Client)) (Py.lit "abc")
                refusing (initial ∅)).2 in
   (save_note (example_globals (Some Client)) (Py.lit "abc") refusing (initial ∅)).1
   = Returns tt
   ∧ firestore w' = firestore (initial ∅)
   ∧ last (trace w')
     = Some (st_error (Py.lit "Error saving notes: "
                       ++ Py.lit "503 Service Unavailable")))
  ∧ (let w' := (save_note slashed_globals (Py.lit "abc") accepting (initial ∅)).2 in
     (save_note slashed_globals (Py.lit "abc") accepting (initial ∅)).1 = Returns tt
     ∧ firestore w' = firestore (initial ∅)
     ∧ trace w'
       = trace (initial ∅)
         ++ [st_error (Py.lit "Error saving notes: "
                       ++ Py.lit "A collection must have an odd number of path elements")]).
Proof.
  split.
  - apply (save_note_refused_shows_error (example_globals (Some Client)) (Py.lit "abc")
             refusing (initial ∅) Client);
      [reflexivity | by vm_compute | reflexivity | reflexivity].
  - apply (save_note_refused_shows_error slashed_globals (Py.lit "abc")
             accepting (initial ∅) Client);
      [reflexivity | by vm_compute | reflexivity].
Defined.

(** A record [save_note] writes is stamped with the time of the commit. *)
Lemma save_note_written_commit g notes_content env w path id n :
  written w (save_note g notes_content env w).2 path id n →
  commit env = Reply (timestamp n).
Proof.
  intros Hw. destruct (save_note_written _ _ _ _ _ _ _ Hw) as (Hs & -> & -> & ts' & Hn).
  destruct Hw as [Hnew Hold].
  destruct (save_note_cases g env w notes_content)
    as [Hsave|[Hsave|[[e Hsave]|(ts & _ & Hcommit & Hsave)]]];
    rewrite Hsave in Hnew; simpl in Hnew; [congruence..|].
  rewrite collection_at_set_document, lookup_insert_eq in Hnew.
  by injection Hnew as <-.
Qed.

(** X3: a record [save_note] writes lies in the collection of the run's
    user, carries that user's ID and the server's commit time, and its
    title is derived from its content: at most 53 characters, and the
    content itself when that has at most 50. *)
Theorem written_record_fields g notes_content env w path id n :
  written w (save_note g notes_content env w).2 path id n →
  path = NOTES_COLLECTION_PATH g
  ∧ user_id n = USER_ID g
  ∧ commit env = Reply (timestamp n)
  ∧ title n = note_title (content n)
  ∧ Py.len (title n) ≤ 53
  ∧ (Py.len (content n) ≤ 50 → title n = content n).
Proof.
  intros Hw. pose proof (save_note_written_commit _ _ _ _ _ _ _ Hw) as Hcommit.
  destruct (save_note_written _ _ _ _ _ _ _ Hw) as (_ & -> & _ & ts & ->).
  simpl in *. split_and!; [done..| |].
  - apply note_title_length.
  - apply note_title_whole.
Qed.

Lemma written_record_fields_witness :
  NOTES_COLLECTION_PATH (example_globals (Some Client))
  = NOTES_COLLECTION_PATH (example_globals (Some Client))
  ∧ user_id example_note = USER_ID (example_globals (Some Client))
  ∧ commit accepting = Reply (timestamp example_note)
  ∧ title example_note = note_title (content example_note)
  ∧ Py.len (title example_note) ≤ 53
  ∧ (Py.len (content example_note) ≤ 50 → title example_note = content example_note).
Proof.
  apply (written_record_fields (example_globals (Some Client))
           (Py.lit "  photosynthesis  ") accepting (initial ∅)
           (NOTES_COLLECTION_PATH (example_globals (Some Client)))
           (new_id (example_globals (Some Client)) accepting (initial ∅))).
  split; vm_compute; [reflexivity | discriminate].
Defined.

(** X4: saving the content of a stored record again, as after loading it
    back into the text area, stores a record with the same content and
    the same title. *)
Theorem save_note_again_same_record
    g notes_content env w path id n g' env' w' path' id' n' :
  written w (save_note g notes_content env w).2 path id n →
  written w' (save_note g' (content n) env' w').2 path' id' n' →
  content n' = content n ∧ title n' = title n.
Proof.
  intros (_ & _ & _ & ts & ->)%save_note_written
         (_ & _ & _ & ts' & ->)%save_note_written.
  simpl. by rewrite !strip_strip.
Qed.

(** For one application, the collection path determines the user. *)
Lemma notes_collection_path_inj app_id user user' :
  notes_collection_path app_id user = notes_collection_path app_id user' →
  user = user'.
Proof.
  unfold notes_collection_path. intros H.
  do 3 apply app_inv_head in H. by apply app_inv_tail in H.
Qed.

(** [split] yields one piece more than there are separators. *)
Lemma split_length (sep : N) (s : str) :
  length (Py.split sep s) = S (length (filter (λ c, c = sep) s)).
Proof.
  induction s as [|c s IH]; [done|]. simpl.
  destruct (N.eqb_spec c sep) as [->|Hne].
  - rewrite filter_cons_True by done. simpl. by rewrite IH.
  - rewrite filter_cons_False by done.
    by destruct (Py.split sep s) as [|piece pieces].
Qed.

(** X21: the notes collection path has five elements and one more for
    every ["/"] in the application ID and in the user ID; the client
    accepts it exactly when the two IDs hold an even number of ["/"]
    together, so for every pair of IDs without one. *)
Theorem notes_collection_path_elements app_id user :
  length (Firestore.path_elements (notes_collection_path app_id user))
  = (5 + slashes app_id + slashes user)%nat
  ∧ Firestore.is_collection_path (notes_collection_path app_id user)
    = Nat.even (slashes app_id + slashes user).
Proof.
  assert (Hlen : length (Firestore.path_elements (notes_collection_path app_id user))
                 = (5 + slashes app_id + slashes user)%nat).
  { unfold Firestore.path_elements, notes_collection_path, slashes.
    rewrite split_length, !filter_app, !length_app.
    change (length (filter (λ c, c = 47%N) (Py.lit "artifacts/"))) with 1%nat.
    change (length (filter (λ c, c = 47%N) (Py.lit "/users/"))) with 2%nat.
    change (length (filter (λ c, c = 47%N) (Py.lit "/study_notes"))) with 1%nat.
    lia. }
  split; [done|]. unfold Firestore.is_collection_path. rewrite Hlen.
  change (5 + slashes app_id + slashes user)%nat
    with (S (S (S (S (S (slashes app_id + slashes user)))))).
  by rewrite Nat.odd_succ, Nat.even_succ, Nat.odd_succ, Nat.even_succ, Nat.odd_succ.
Qed.

(** X5: the collection path determines the user, and [save_note] for one
    user leaves the collection of every other user of the application as
    it is. *)
Theorem save_note_other_users_untouched app_id handle user user' notes_content env w :
  user ≠ user' →
  notes_collection_path app_id user ≠ notes_collection_path app_id user'
  ∧ Firestore.collection_at (notes_collection_path app_id user')
      (firestore (save_note (globals_of app_id handle user) notes_content env w).2)
    = Firestore.collection_at (notes_collection_path app_id user') (firestore w).
Proof.
  intros Hne.
  assert (Hpath : notes_collection_path app_id user
                  ≠ notes_collection_path app_id user')
    by (by intros ?%notes_collection_path_inj).
  split; [done|].
  destruct (save_note_firestore (globals_of app_id handle user) env w notes_content)
    as [->|(ts & _ & ->)]; [done|].
  by rewrite collection_at_set_document_ne.
Qed.

Lemma save_note_other_users_untouched_witness :
  notes_collection_path (Py.lit "default-app-id") (Py.lit "alice")
  ≠ notes_collection_path (Py.lit "default-app-id") (Py.lit "streamlit-anon-user")
  ∧ Firestore.collection_at
      (notes_collection_path (Py.lit "default-app-id") (Py.lit "streamlit-anon-user"))
      (firestore (save_note (globals_of (Py.lit "default-app-id") (Some Client)
                               (Py.lit "alice"))
                    (Py.lit "osmosis") accepting (initial twelve_notes)).2)
    = Firestore.collection_at
        (notes_collection_path (Py.lit "default-app-id") (Py.lit "streamlit-anon-user"))
        (firestore (initial twelve_notes)).
Proof.
  apply (save_note_other_users_untouched (Py.lit "default-app-id") (Some Client)
           (Py.lit "alice") (Py.lit "streamlit-anon-user")).
  by vm_compute.
Defined.

Lemma save_note_again_same_record_witness :
  content (Firestore.stamp (sent_fields (example_globals (Some Client))
                              (content example_note)) 1700000000000000)
  = content example_note
  ∧ title (Firestore.stamp (sent_fields (example_globals (Some Client))
                              (content example_note)) 1700000000000000)
    = title example_note.
Proof.
  apply (save_note_again_same_record
           (example_globals (Some Client)) (Py.lit "  photosynthesis  ") accepting
           (initial ∅)
           (NOTES_COLLECTION_PATH (example_globals (Some Client)))
           (new_id (example_globals (Some Client)) accepting (initial ∅))
           example_note
           (example_globals (Some Client)) accepting
           (save_note (example_globals (Some Client)) (Py.lit "  photosynthesis  ")
              accepting (initial ∅)).2
           (NOTES_COLLECTION_PATH (example_globals (Some Client)))
           (new_id (example_globals (Some Client)) accepting
              (save_note (example_globals (Some Client)) (Py.lit "  photosynthesis  ")
                 accepting (initial ∅)).2)).
  - split; vm_compute; [reflexivity | discriminate].
  - split; vm_compute; [reflexivity | discriminate].
Defined.

(** ** The cache of [generate_quiz_content] *)

(** X6: the first call for an input sleeps two seconds under the spinner
    when the input is not blank, and not at all when it is; a later call
    for the same input, in this or another run, returns the same result
    and adds nothing to the trace: it does not sleep again. *)
Theorem generate_quiz_content_sleeps_once notes_content env w :
  quiz_cache w !! notes_content = None →
  let first := generate_quiz_content notes_content env w in
  trace first.2
  = trace w ++ (if Py.truthy (Py.strip notes_content)
                then [st_spinner (Py.lit "Generating AI Content..."); time_sleep 2]
                else [])
  ∧ ∀ env',
      (generate_quiz_content notes_content env' first.2).1 = first.1
      ∧ trace (generate_quiz_content notes_content env' first.2).2 = trace first.2.
Proof.
  intros Hmiss first. subst first. unfold generate_quiz_content, cached.
  rewrite Hmiss.
  destruct (decide (Py.strip notes_content = [])) as [Hs|Hs].
  - rewrite generate_quiz_content_body_blank by done. rewrite Hs. simpl.
    split; [by rewrite app_nil_r|]. intros env'. rewrite lookup_insert_eq.
    simpl. rewrite drop_all. simpl. by rewrite app_nil_r.
  - rewrite generate_quiz_content_body_text by done.
    destruct (Py.strip notes_content) as [|c s]; [done|]. simpl.
    split; [by rewrite <-app_assoc|]. intros env'. rewrite lookup_insert_eq.
    rewrite <-app_assoc, drop_app_length. simpl.
    rewrite !filter_cons_False, filter_nil by done.
    by rewrite app_nil_r, <-app_assoc.
Qed.

Lemma generate_quiz_content_sleeps_once_witness :
  let first := generate_quiz_content (Py.lit "mitosis") accepting (initial ∅) in
  trace first.2
  = trace (initial ∅)
    ++ (if Py.truthy (Py.strip (Py.lit "mitosis"))
        then [st_spinner (Py.lit "Generating AI Content..."); time_sleep 2]
        else [])
  ∧ ∀ env',
      (generate_quiz_content (Py.lit "mitosis") env' first.2).1 = first.1
      ∧ trace (generate_quiz_content (Py.lit "mitosis") env' first.2).2 = trace first.2.
Proof.
  apply (generate_quiz_content_sleeps_once (Py.lit "mitosis") accepting (initial ∅)).
  reflexivity.
Defined.

(** ** Walking a script that only draws *)

Lemma for_each_cons {A} (x : A) xs (body : A → M unit) env w :
  for_each (x :: xs) body env w
  = match body x env w with
    | (Returns _, w') => for_each xs body env w'
    | (Raises e, w') => (Raises e, w')
    | (Control c, w') => (Control c, w')
    end.
Proof. done. Qed.

(** A loop adds to the trace what its turns add. *)
Lemma for_each_trace {A} (ok : event → Prop) (xs : list A) (body : A → M unit) env :
  (∀ x w, x ∈ xs → ∃ es, trace (body x env w).2 = trace w ++ es ∧ Forall ok es) →
  ∀ w, ∃ es, trace (for_each xs body env w).2 = trace w ++ es ∧ Forall ok es.
Proof.
  induction xs as [|x xs IH]; intros Hbody w.
  - exists []. simpl. by rewrite app_nil_r.
  - cbn [for_each]. unfold bind at 1.
    destruct (Hbody x w) as (es & Hes & Hok); [by left|].
    destruct (body x env w) as [[[]|e|c] w1]; simpl in *; [|by eauto..].
    assert (Hrest : ∀ y w', y ∈ xs →
              ∃ es, trace (body y env w').2 = trace w' ++ es ∧ Forall ok es)
      by (intros y w' Hy; apply Hbody; by right).
    destruct (IH Hrest w1) as (es' & Hes' & Hok').
    exists (es ++ es'). rewrite Hes', Hes, <-app_assoc. split; [done|].
    by apply Forall_app.
Qed.

Section Quiet.

Context (P : world → Prop).
Hypothesis Hlog : ∀ es w, P w → P (log es w).
Hypothesis Hwidgets : ∀ ws w, P w → P (with_widgets ws w).

Lemma quiet_emit e : preserves P (emit e).
Proof. apply preserves_modify. intros w. apply Hlog. Qed.

Lemma quiet_button label key : preserves P (st.button label key).
Proof.
  intros env w Hw. unfold st.button. case_bool_decide; [done|].
  simpl. by apply Hlog, Hwidgets.
Qed.

Lemma quiet_stream path : preserves P (stream path).
Proof.
  intros env w Hw. unfold stream.
  destruct (stream_fault env); simpl; by apply Hlog.
Qed.

Lemma quiet_display_quiz quiz_data : preserves P (display_quiz quiz_data).
Proof.
  unfold display_quiz, st.error, st.success.
  repeat first
    [ progress intros
    | apply preserves_bind | apply preserves_when | apply preserves_for_each
    | apply preserves_ret | apply quiet_emit | apply quiet_button
    | apply preserves_columns
    | match goal with
      | |- preserves _ (match ?x with _ => _ end) => destruct x
      end ].
Qed.

End Quiet.

(** ** [display_quiz] *)

Lemma draws_only_refl w : draws_only w w.
Proof. by unfold draws_only. Qed.

Lemma draws_only_log w0 es w : draws_only w0 w → draws_only w0 (log es w).
Proof. by unfold draws_only. Qed.

Lemma draws_only_widgets w0 ws w : draws_only w0 w → draws_only w0 (with_widgets ws w).
Proof. by unfold draws_only. Qed.

Lemma enumerate_lookup {A} (xs : list A) i x :
  (i, x) ∈ enumerate xs → xs !! i = Some x.
Proof.
  unfold enumerate.
  assert (Hshift : ∀ start, (i, x) ∈ zip (seq start (length xs)) xs →
                     ∃ j, i = (start + j)%nat ∧ xs !! j = Some x).
  { induction xs as [|y xs IH]; intros start; simpl.
    - by intros ?%elem_of_nil.
    - intros [[= -> ->]|Hin]%elem_of_cons.
      + exists 0%nat. split; [lia|done].
      + destruct (IH (S start) Hin) as (j & -> & Hj).
        exists (S j). split; [lia|done]. }
  intros Hin. by destruct (Hshift 0%nat Hin) as (j & -> & Hj).
Qed.

(** One answer button: the button, and the verdict if it was clicked. *)
Lemma option_button_drawn env i q option w :
  option ∈ options q →
  ∃ es,
    trace ((pressed <- st.button option (option_button i option) ;;
            when pressed
              (if bool_decide (option = correctAnswer q)
               then st.success (Py.lit "Correct!")
               else st.error (Py.lit "Incorrect. The answer is: " ++ correctAnswer q)))
             env w).2
    = trace w ++ es
    ∧ Forall (option_feedback env i q) es.
Proof.
  intros Hin. unfold bind, st.button.
  case_bool_decide as Hdrawn; [exists []; simpl; by rewrite app_nil_r|].
  assert (Hbutton : option_feedback env i q (st_button option))
    by (left; by eauto).
  destruct (clicked env (option_button i option)) eqn:Hclicked; simpl.
  - case_bool_decide as Hright; simpl.
    + exists [st_button option; st_success (Py.lit "Correct!")].
      split; [by rewrite <-app_assoc|].
      constructor; [done|]. constructor; [|constructor].
      right. left. by rewrite <-Hright.
    + eexists [st_button option; _]. split; [by rewrite <-app_assoc|].
      constructor; [done|]. constructor; [|constructor].
      right. right. by eauto 10.
  - exists [st_button option]. split; [done|]. by constructor.
Qed.

(** X7: for a quiz payload, everything [display_quiz] draws is an answer
    button of one of the questions, "Correct!" for a question whose
    correct answer was clicked, or the correction, naming the correct
    answer, for a question of which another option was clicked; and
    drawing is all it does: database, session state and caches stay as
    they are. *)
Theorem display_quiz_feedback quiz flashcards env w :
  let w' := (display_quiz (content_dict quiz flashcards) env w).2 in
  (∃ es, trace w' = trace w ++ es ∧ Forall (quiz_feedback env quiz) es)
  ∧ draws_only w w'.
Proof.
  intros w'. subst w'. split.
  - unfold display_quiz. simpl.
    destruct quiz as [|q0 quiz0];
      [exists []; simpl; by rewrite app_nil_r|].
    set (quiz := q0 :: quiz0).
    apply for_each_trace. intros [i q] w1 Hq%enumerate_lookup. simpl.
    unfold bind at 1, st.columns.
    destruct (length (options q)) eqn:Hlen;
      [exists []; simpl; by rewrite app_nil_r|]. simpl.
    destruct (for_each_trace (option_feedback env i q) (options q)
                (λ option,
                   pressed <- st.button option (option_button i option) ;;
                   when pressed
                     (if bool_decide (option = correctAnswer q)
                      then st.success (Py.lit "Correct!")
                      else st.error (Py.lit "Incorrect. The answer is: "
                                     ++ correctAnswer q)))
                env (λ option w2 Hin, option_button_drawn env i q option w2 Hin) w1)
      as (es & Hes & Hok).
    exists es. split; [done|].
    eapply Forall_impl; [done|]. intros e He. by exists i, q.
  - apply (quiet_display_quiz (draws_only w));
      [apply draws_only_log|apply draws_only_widgets|apply draws_only_refl].
Qed.

(** ** [display_saved_notes] *)

(** One turn of the loop over the notes read. *)
Lemma load_turn env w (n : note) :
  (pressed <- st.button (load_label n) (load_key n) ;;
   when pressed
     (modify (λ w, with_session (load_note n (session_state w)) w) ;;;
      st.rerun)) env w
  = if bool_decide (load_key n ∈ widgets w)
    then (Raises (duplicate_widget_id env), w)
    else
      let drawn := log [st_button (load_label n)]
                     (with_widgets (widgets w ++ [load_key n]) w) in
      if clicked env (load_key n)
      then (Control RerunException,
            with_session (load_note n (session_state drawn)) drawn)
      else (Returns tt, drawn).
Proof.
  unfold bind at 1, st.button. case_bool_decide; [done|].
  by destruct (clicked env (load_key n)).
Qed.

(** How the loop over the notes ends: normally or on a key that is
    taken, with the session as it was, or with a rerun after a click,
    with the clicked note loaded into the session. *)
Lemma load_loop_outcome (l : list note) env w :
  let r := for_each l (λ note,
             pressed <- st.button (load_label note) (load_key note) ;;
             when pressed
               (modify (λ w, with_session (load_note note (session_state w)) w) ;;;
                st.rerun)) env w in
  firestore r.2 = firestore w
  ∧ match r.1 with
    | Returns _ => session_state r.2 = session_state w
    | Raises e => e = duplicate_widget_id env ∧ session_state r.2 = session_state w
    | Control c =>
        c = RerunException
        ∧ ∃ n, n ∈ l ∧ clicked env (load_key n) = true
               ∧ session_state r.2 = load_note n (session_state w)
    end.
Proof.
  revert w. induction l as [|n l IH]; intros w r; subst r; [done|].
  rewrite for_each_cons, load_turn.
  case_bool_decide; [done|]. cbv zeta.
  destruct (clicked env (load_key n)) eqn:Hclicked.
  - simpl. split; [done|]. split; [done|].
    exists n. split_and!; [by left|done..].
  - specialize (IH (log [st_button (load_label n)]
                      (with_widgets (widgets w ++ [load_key n]) w))).
    cbv zeta in IH. destruct IH as [Hfs IH]. split; [done|].
    destruct (for_each l _ env _) as [[[]|e|c] w1]; simpl in *; [done..|].
    destruct IH as (-> & m & Hm & ? & ?). split; [done|].
    exists m. split_and!; [by right|done..].
Qed.

(** The query, case by case: the handle, the path, the answer of the
    store. *)
Lemma notes_list_unfold g env w :
  notes_list g env w
  = match db g with
    | None => (Raises (Py.lit "'NoneType' object has no attribute 'collection'"), w)
    | Some _ =>
        if Firestore.is_collection_path (NOTES_COLLECTION_PATH g)
        then
          match stream_fault env with
          | Some e => (Raises e, log [firestore_stream (NOTES_COLLECTION_PATH g)] w)
          | None =>
              (Returns
                 (Firestore.to_dict
                    <$> Firestore.limit 10
                          (Firestore.order_by_timestamp_descending
                             (map_to_list (user_notes g w)))),
               log [firestore_stream (NOTES_COLLECTION_PATH g)] w)
          end
        else (Raises (Py.lit "A collection must have an odd number of path elements"), w)
    end.
Proof.
  unfold notes_list, notes_stream, bind, db_collection, stream.
  destruct (db g) as [[]|]; [|done].
  destruct (Firestore.is_collection_path (NOTES_COLLECTION_PATH g)); [|done].
  by destruct (stream_fault env).
Qed.

(** The query draws nothing and changes nothing. *)
Lemma notes_list_draws_only g env w : draws_only w (notes_list g env w).2.
Proof.
  rewrite notes_list_unfold.
  destruct (db g) as [c|]; [|apply draws_only_refl].
  destruct (Firestore.is_collection_path (NOTES_COLLECTION_PATH g));
    [|apply draws_only_refl].
  destruct (stream_fault env); simpl; apply draws_only_log, draws_only_refl.
Qed.

(** The query does not end the run. *)
Lemma notes_list_no_control g env w c : (notes_list g env w).1 ≠ Control c.
Proof.
  rewrite notes_list_unfold.
  destruct (db g) as [c'|]; [|done].
  destruct (Firestore.is_collection_path (NOTES_COLLECTION_PATH g)); [|done].
  by destruct (stream_fault env).
Qed.

(** A query that returns has sent exactly the request for the user's
    collection. *)
Lemma notes_list_returns g env w l :
  (notes_list g env w).1 = Returns l →
  (notes_list g env w).2 = log [firestore_stream (NOTES_COLLECTION_PATH g)] w.
Proof.
  rewrite notes_list_unfold.
  destruct (db g) as [c|]; [|done].
  destruct (Firestore.is_collection_path (NOTES_COLLECTION_PATH g)); [|done].
  by destruct (stream_fault env).
Qed.

(** [display_saved_notes], case by case. *)
Lemma display_saved_notes_unfold g env w :
  display_saved_notes g env w
  = match notes_list g env w with
    | (Returns l, w1) =>
        if bool_decide (l = [])
        then (Returns tt,
              log [st_info (Py.lit "No notes saved yet. Use the area above to paste your study material!")] w1)
        else
          match for_each l (λ note,
                  pressed <- st.button (load_label note) (load_key note) ;;
                  when pressed
                    (modify (λ w, with_session (load_note note (session_state w)) w) ;;;
                     st.rerun)) env w1 with
          | (Raises e, w2) =>
              (Returns tt, log [st_error (Py.lit "Error retrieving notes: " ++ e)] w2)
          | r => r
          end
    | (Raises e, w1) =>
        (Returns tt, log [st_error (Py.lit "Error retrieving notes: " ++ e)] w1)
    | (Control c, w1) => (Control c, w1)
    end.
Proof.
  unfold display_saved_notes, try_except, bind at 1.
  destruct (notes_list g env w) as [[l|e|c] w1]; [|done..].
  case_bool_decide; [done|].
  by destruct (for_each l _ env w1) as [[[]|e|c] w2].
Qed.

Lemma for_each_app {A} (xs ys : list A) (body : A → M unit) env w :
  for_each (xs ++ ys) body env w
  = match for_each xs body env w with
    | (Returns _, w1) => for_each ys body env w1
    | r => r
    end.
Proof.
  revert w. induction xs as [|x xs IH]; intros w; [done|].
  rewrite <-app_comm_cons, !for_each_cons.
  destruct (body x env w) as [[[]|e|c] w1]; [apply IH|done..].
Qed.

(** Notes with pairwise different keys, none taken and none clicked: the
    loop draws all their buttons and registers their keys. *)
Lemma load_loop_all (l : list note) env w :
  NoDup (load_key <$> l) →
  (∀ n, n ∈ l → (load_key n ∉ widgets w) ∧ clicked env (load_key n) = false) →
  ∃ w',
    for_each l (λ note,
      pressed <- st.button (load_label note) (load_key note) ;;
      when pressed
        (modify (λ w, with_session (load_note note (session_state w)) w) ;;;
         st.rerun)) env w = (Returns tt, w')
    ∧ trace w' = trace w ++ (st_button ∘ load_label <$> l)
    ∧ widgets w' = widgets w ++ (load_key <$> l).
Proof.
  revert w. induction l as [|n l IH]; intros w Hkeys Hfree.
  - exists w. simpl. by rewrite !app_nil_r.
  - rewrite for_each_cons, load_turn. cbv zeta.
    destruct (Hfree n) as [Hn Hclicked]; [by left|].
    rewrite bool_decide_eq_false_2, Hclicked by done.
    apply NoDup_cons in Hkeys as [Hnew Hkeys].
    destruct (IH (log [st_button (load_label n)]
                    (with_widgets (widgets w ++ [load_key n]) w)) Hkeys)
      as (w' & Hloop & Htrace & Hwidgets).
    + intros m Hm. destruct (Hfree m) as [Hm' ?]; [by right|]. split; [|done].
      simpl. rewrite elem_of_app, list_elem_of_singleton. intros [?|Heq]; [done|].
      apply Hnew. rewrite <-Heq. by apply list_elem_of_fmap_2.
    + exists w'. split; [done|]. rewrite Htrace, Hwidgets. simpl.
      by rewrite <-!app_assoc.
Qed.

(** The first note whose button is clicked, after notes with pairwise
    different keys, none taken and none clicked: the loop draws the
    buttons up to that of the clicked note, loads it and ends the run
    with a rerun. *)
Lemma load_loop_click (before rest : list note) (n : note) env w :
  NoDup (load_key <$> before) →
  (∀ m, m ∈ before → (load_key m ∉ widgets w) ∧ clicked env (load_key m) = false) →
  load_key n ∉ widgets w →
  clicked env (load_key n) = true →
  ∃ w',
    for_each (before ++ n :: rest) (λ note,
      pressed <- st.button (load_label note) (load_key note) ;;
      when pressed
        (modify (λ w, with_session (load_note note (session_state w)) w) ;;;
         st.rerun)) env w = (Control RerunException, w')
    ∧ session_state w' = load_note n (session_state w)
    ∧ trace w' = trace w ++ (st_button ∘ load_label <$> before ++ [n]).
Proof.
  intros Hkeys Hfree Hn Hclicked.
  destruct (load_loop_all before env w Hkeys Hfree) as (w1 & Hloop & Htrace & Hwidgets).
  pose proof (load_loop_outcome before env w) as Hsession. cbv zeta in Hsession.
  rewrite Hloop in Hsession. destruct Hsession as [_ Hsession]. cbn [fst snd] in Hsession.
  rewrite for_each_app, Hloop, for_each_cons, load_turn. cbv zeta.
  rewrite bool_decide_eq_false_2, Hclicked.
  - eexists. split; [done|]. cbn [session_state with_session log with_widgets trace].
    rewrite Hsession, Htrace, fmap_app. split; [done|]. by rewrite <-app_assoc.
  - rewrite Hwidgets, elem_of_app. intros [?|(m & Heq & Hm)%list_elem_of_fmap]; [done|].
    destruct (Hfree m Hm) as [_ Hm']. congruence.
Qed.

(** X8: [display_saved_notes] never raises and never touches the
    database.  It returns, with the session state as it was, unless a
    load button was clicked: then it ends the run with a rerun, and the
    session holds the content of a clicked note among those read, with
    the notes tab active.  And a click does lead there: when the notes
    read before a note have load keys that differ pairwise and are
    neither taken nor clicked, and the load key of that note is free and
    clicked, [display_saved_notes] draws the buttons up to that of the
    note and no further, puts the content of the note into the session
    with the notes tab active, and ends the run with a rerun. *)
Theorem display_saved_notes_outcome g env w :
  let r := display_saved_notes g env w in
  firestore r.2 = firestore w
  ∧ ((r.1 = Returns tt ∧ session_state r.2 = session_state w)
     ∨ (r.1 = Control RerunException
        ∧ ∃ l n, (notes_list g env w).1 = Returns l
                 ∧ n ∈ l ∧ clicked env (load_key n) = true
                 ∧ notes_input (session_state r.2) = Some (content n)
                 ∧ active_tab (session_state r.2) = Some tab_notes
                 ∧ quiz_result (session_state r.2) = quiz_result (session_state w)))
  ∧ ∀ before n rest,
      (notes_list g env w).1 = Returns (before ++ n :: rest) →
      NoDup (load_key <$> before) →
      (∀ m, m ∈ before →
            (load_key m ∉ widgets w) ∧ clicked env (load_key m) = false) →
      load_key n ∉ widgets w →
      clicked env (load_key n) = true →
      r.1 = Control RerunException
      ∧ session_state r.2
        = {| notes_input := Some (content n); active_tab := Some tab_notes;
             quiz_result := quiz_result (session_state w) |}
      ∧ trace r.2
        = trace w ++ (firestore_stream (NOTES_COLLECTION_PATH g)
                      :: (st_button ∘ load_label <$> before ++ [n])).
Proof.
  intros r. subst r. apply and_assoc. split.
  - rewrite display_saved_notes_unfold.
    destruct (notes_list_draws_only g env w) as (Hfs & Hsession & _).
    pose proof (notes_list_no_control g env w) as Hcontrol.
    destruct (notes_list g env w) as [[l|e|c] w1] eqn:Hread;
      cbn [fst snd] in Hfs, Hsession, Hcontrol.
    + case_bool_decide as Hempty; [by auto|].
      destruct (load_loop_outcome l env w1) as [Hfs' Hloop]. cbv zeta in Hfs', Hloop.
      destruct (for_each l _ env w1) as [[[]|e|c] w2]; cbn [fst snd] in *.
      * split; [congruence|]. left. split; [done|congruence].
      * destruct Hloop as [_ Hloop]. split; [exact (eq_trans Hfs' Hfs)|]. left.
        split; [done|]. exact (eq_trans Hloop Hsession).
      * destruct Hloop as (-> & n & Hn & Hclicked & Hloaded).
        split; [congruence|]. right. split; [done|].
        exists l, n. rewrite Hloaded, Hsession. by split_and!.
    + by auto.
    + by destruct (Hcontrol c).
  - intros before n rest Hread Hkeys Hfree Hn Hclicked.
    rewrite display_saved_notes_unfold.
    pose proof (notes_list_returns g env w _ Hread) as Hw1.
    destruct (notes_list g env w) as [r w1]. simpl in Hread, Hw1. subst r w1.
    rewrite bool_decide_eq_false_2 by (by destruct before).
    destruct (load_loop_click before rest n env
                (log [firestore_stream (NOTES_COLLECTION_PATH g)] w)
                Hkeys Hfree Hn Hclicked) as (w' & -> & Hsession & Htrace).
    cbn [fst snd]. split_and!; [done|by rewrite Hsession|].
    rewrite Htrace. cbn [trace log]. by rewrite <-app_assoc.
Qed.

Lemma display_saved_notes_outcome_witness :
  let r := display_saved_notes (example_globals (Some Client)) (loading 11)
             (initial twelve_notes) in
  r.1 = Control RerunException
  ∧ session_state r.2
    = {| notes_input := Some (Py.lit "note"); active_tab := Some tab_notes;
         quiz_result := None |}
  ∧ trace r.2
    = [firestore_stream (NOTES_COLLECTION_PATH (example_globals (Some Client)));
       st_button (load_label (example_doc 12).2);
       st_button (load_label (example_doc 11).2)].
Proof.
  destruct (display_saved_notes_outcome (example_globals (Some Client)) (loading 11)
              (initial twelve_notes)) as (_ & _ & Hclick).
  apply (Hclick [(example_doc 12).2] (example_doc 11).2
           ((λ k, (example_doc k).2) <$> [10; 9; 8; 7; 6; 5; 4; 3]%nat)).
  - by vm_compute.
  - apply (bool_decide_unpack _). by vm_compute.
  - intros m ->%list_elem_of_singleton. split; [|reflexivity].
    simpl. apply not_elem_of_nil.
  - simpl. apply not_elem_of_nil.
  - reflexivity.
Defined.

(** X9: without a database handle, [display_saved_notes] sends no query;
    it draws the error alert with the text of the attribute error on
    [None] and returns. *)
Theorem display_saved_notes_without_database g env w :
  db g = None →
  display_saved_notes g env w
  = (Returns tt,
     log [st_error (Py.lit "Error retrieving notes: "
                    ++ Py.lit "'NoneType' object has no attribute 'collection'")] w).
Proof.
  intros Hdb. unfold display_saved_notes, try_except, notes_list, notes_stream, bind.
  by rewrite Hdb.
Qed.

Lemma display_saved_notes_without_database_witness :
  display_saved_notes (example_globals None) accepting (initial twelve_notes)
  = (Returns tt,
     log [st_error (Py.lit "Error retrieving notes: "
                    ++ Py.lit "'NoneType' object has no attribute 'collection'")]
       (initial twelve_notes)).
Proof.
  apply (display_saved_notes_without_database (example_globals None)). reflexivity.
Defined.

(** X10: with a handle, a collection path that the client accepts (an
    odd number of elements), a query that does not fail and no saved note
    of the user, [display_saved_notes] sends the query and draws the hint
    that no notes are saved yet, and no button. *)
Theorem display_saved_notes_empty g env w c :
  db g = Some c →
  Firestore.is_collection_path (NOTES_COLLECTION_PATH g) = true →
  stream_fault env = None → user_notes g w = ∅ →
  display_saved_notes g env w
  = (Returns tt,
     log [st_info (Py.lit "No notes saved yet. Use the area above to paste your study material!")]
       (log [firestore_stream (NOTES_COLLECTION_PATH g)] w)).
Proof.
  intros Hdb Hpath Hfault Hempty.
  rewrite display_saved_notes_unfold, notes_list_unfold.
  by rewrite Hdb, Hpath, Hfault, Hempty, map_to_list_empty.
Qed.

Lemma display_saved_notes_empty_witness :
  display_saved_notes (example_globals (Some Client)) accepting (initial ∅)
  = (Returns tt,
     log [st_info (Py.lit "No notes saved yet. Use the area above to paste your study material!")]
       (log [firestore_stream (NOTES_COLLECTION_PATH (example_globals (Some Client)))]
          (initial ∅))).
Proof.
  apply (display_saved_notes_empty (example_globals (Some Client)) accepting
           (initial ∅) Client); reflexivity.
Defined.

(** X20: with a handle and a collection path of an even number of
    elements, [display_saved_notes] sends no query: the client raises,
    the error alert with the text of its exception is drawn, and the
    function returns. *)
Theorem display_saved_notes_bad_path g env w c :
  db g = Some c →
  Firestore.is_collection_path (NOTES_COLLECTION_PATH g) = false →
  display_saved_notes g env w
  = (Returns tt,
     log [st_error (Py.lit "Error retrieving notes: "
                    ++ Py.lit "A collection must have an odd number of path elements")]
       w).
Proof.
  intros Hdb Hpath. rewrite display_saved_notes_unfold, notes_list_unfold.
  by rewrite Hdb, Hpath.
Qed.

Lemma display_saved_notes_bad_path_witness :
  display_saved_notes slashed_globals accepting (initial twelve_notes)
  = (Returns tt,
     log [st_error (Py.lit "Error retrieving notes: "
                    ++ Py.lit "A collection must have an odd number of path elements")]
       (initial twelve_notes)).
Proof.
  apply (display_saved_notes_bad_path slashed_globals accepting (initial twelve_notes)
           Client); reflexivity.
Defined.

(** X11: when the notes read have load keys that differ pairwise, which
    is to say timestamps in different seconds, and none of the keys is
    taken or clicked, [display_saved_notes] draws after the query one
    load button per note read, in the order of the query, and nothing
    else. *)
Theorem display_saved_notes_all_buttons g env w l :
  (notes_list g env w).1 = Returns l → l ≠ [] →
  NoDup (load_key <$> l) →
  (∀ n, n ∈ l → (load_key n ∉ widgets w) ∧ clicked env (load_key n) = false) →
  (display_saved_notes g env w).1 = Returns tt
  ∧ trace (display_saved_notes g env w).2
    = trace w ++ (firestore_stream (NOTES_COLLECTION_PATH g)
                  :: (st_button ∘ load_label <$> l)).
Proof.
  intros Hread Hne Hkeys Hfree. rewrite display_saved_notes_unfold.
  pose proof (notes_list_returns g env w l Hread) as Hw1.
  destruct (notes_list g env w) as [r w1]. simpl in Hread, Hw1. subst r w1.
  rewrite bool_decide_eq_false_2 by done.
  destruct (load_loop_all l env (log [firestore_stream (NOTES_COLLECTION_PATH g)] w)
              Hkeys Hfree) as (w' & -> & Htrace & _).
  split; [done|]. cbn [snd]. rewrite Htrace. cbn [trace log].
  by rewrite <-app_assoc.
Qed.

Lemma display_saved_notes_all_buttons_witness :
  (display_saved_notes (example_globals (Some Client)) accepting
     (initial twelve_notes)).1 = Returns tt
  ∧ trace (display_saved_notes (example_globals (Some Client)) accepting
             (initial twelve_notes)).2
    = trace (initial twelve_notes)
      ++ (firestore_stream (NOTES_COLLECTION_PATH (example_globals (Some Client)))
          :: (st_button ∘ load_label <$> latest_ten)).
Proof.
  apply (display_saved_notes_all_buttons (example_globals (Some Client)) accepting
           (initial twelve_notes) latest_ten).
  - by vm_compute.
  - discriminate.
  - apply (bool_decide_unpack _). by vm_compute.
  - intros n _. split; [apply not_elem_of_nil|reflexivity].
Defined.

(** X12: when a note read falls in the same second as a note before it
    in the list, its load key is taken: [display_saved_notes] draws the
    buttons of the notes before it, then the error alert with Streamlit's
    duplicate-key exception, and returns without drawing the rest. *)
Theorem display_saved_notes_same_second g env w before a note rest :
  (notes_list g env w).1 = Returns (before ++ note :: rest) →
  NoDup (load_key <$> before) →
  (∀ n, n ∈ before → (load_key n ∉ widgets w) ∧ clicked env (load_key n) = false) →
  a ∈ before →
  timestamp a `div` 1000000 = timestamp note `div` 1000000 →
  (display_saved_notes g env w).1 = Returns tt
  ∧ trace (display_saved_notes g env w).2
    = trace w ++ (firestore_stream (NOTES_COLLECTION_PATH g)
                  :: (st_button ∘ load_label <$> before))
              ++ [st_error (Py.lit "Error retrieving notes: " ++ duplicate_widget_id env)].
Proof.
  intros Hread Hkeys Hfree Ha Hsecond. rewrite display_saved_notes_unfold.
  pose proof (notes_list_returns g env w _ Hread) as Hw1.
  destruct (notes_list g env w) as [r w1]. simpl in Hread, Hw1. subst r w1.
  rewrite bool_decide_eq_false_2 by (by destruct before).
  rewrite for_each_app.
  destruct (load_loop_all before env
              (log [firestore_stream (NOTES_COLLECTION_PATH g)] w) Hkeys Hfree)
    as (w' & -> & Htrace & Hwidgets).
  rewrite for_each_cons, load_turn.
  rewrite bool_decide_eq_true_2.
  - split; [done|]. cbn [snd trace log]. rewrite Htrace. cbn [trace log].
    by rewrite <-!app_assoc.
  - rewrite Hwidgets, elem_of_app. right.
    unfold load_key. rewrite <-Hsecond.
    by apply (list_elem_of_fmap_2 load_key) in Ha.
Qed.

Lemma display_saved_notes_same_second_witness :
  (display_saved_notes (example_globals (Some Client)) accepting
     (initial same_second_notes)).1 = Returns tt
  ∧ trace (display_saved_notes (example_globals (Some Client)) accepting
             (initial same_second_notes)).2
    = trace (initial same_second_notes)
      ++ (firestore_stream (NOTES_COLLECTION_PATH (example_globals (Some Client)))
          :: (st_button ∘ load_label <$> [(quick_note (Py.lit "b") 5400000).2]))
      ++ [st_error (Py.lit "Error retrieving notes: " ++ duplicate_widget_id accepting)].
Proof.
  apply (display_saved_notes_same_second (example_globals (Some Client)) accepting
           (initial same_second_notes)
           [(quick_note (Py.lit "b") 5400000).2]
           (quick_note (Py.lit "b") 5400000).2
           (quick_note (Py.lit "a") 5000000).2 []).
  - by vm_compute.
  - apply (bool_decide_unpack _). by vm_compute.
  - intros n _. split; [apply not_elem_of_nil|reflexivity].
  - by left.
  - reflexivity.
Defined.

(** ** Walking the script with an invariant that ignores drawing and the session *)

Section Steady.

Context (P : world → Prop).
Hypothesis Hlog : ∀ es w, P w → P (log es w).
Hypothesis Hwidgets : ∀ ws w, P w → P (with_widgets ws w).
Hypothesis Hsession : ∀ s w, P w → P (with_session s w).

Local Ltac steady_step :=
  first
    [ progress intros
    | apply preserves_bind | apply preserves_try_except | apply preserves_when
    | apply preserves_for_each
    | apply preserves_ret | apply preserves_raise | apply preserves_control
    | apply preserves_ask | apply preserves_get
    | apply quiet_emit; [exact Hlog]
    | apply quiet_button; [exact Hlog|exact Hwidgets]
    | apply quiet_stream; [exact Hlog]
    | apply quiet_display_quiz; [exact Hlog|exact Hwidgets]
    | apply preserves_columns
    | apply preserves_db_collection
    | apply preserves_modify; intros; apply Hsession; assumption
    | match goal with
      | |- preserves _ (match ?x with _ => _ end) => destruct x
      end
    | assumption ].

Lemma steady_notes_list g : preserves P (notes_list g).
Proof. unfold notes_list, notes_stream. repeat steady_step. Qed.

Lemma steady_display_saved_notes g : preserves P (display_saved_notes g).
Proof.
  unfold display_saved_notes, st.info, st.error, st.rerun.
  apply preserves_try_except; [|repeat steady_step].
  apply preserves_bind; [apply steady_notes_list|]. repeat steady_step.
Qed.

Lemma steady_initialize_firebase_body : preserves P initialize_firebase_body.
Proof. unfold initialize_firebase_body, st.error. repeat steady_step. Qed.

Lemma steady_authenticate_user_body : preserves P authenticate_user_body.
Proof. unfold authenticate_user_body, st.error, st.warning. repeat steady_step. Qed.

Lemma steady_generate_quiz_content_body notes_content :
  preserves P (generate_quiz_content_body notes_content).
Proof.
  unfold generate_quiz_content_body, st.spinner. repeat steady_step.
Qed.

(** [main], given what saving and generating do to the invariant for the
    globals at hand. *)
Lemma steady_main g :
  (∀ notes_content, preserves P (save_note g notes_content)) →
  (∀ notes_content, preserves P (generate_quiz_content notes_content)) →
  preserves P (main g).
Proof.
  intros Hsave Hgenerate.
  unfold main, st.info, st.warning, st.text_area, st.rerun.
  repeat first
    [ apply Hsave | apply Hgenerate | apply steady_display_saved_notes
    | apply quiet_display_quiz; [exact Hlog|exact Hwidgets]
    | steady_step ].
Qed.

End Steady.

(** ** The setup functions *)

Lemma authenticate_user_returns env w :
  ∃ user w1,
    authenticate_user env w = (Returns user, w1)
    ∧ firestore w1 = firestore w
    ∧ session_state w1 = session_state w
    ∧ quiz_cache w1 = quiz_cache w
    ∧ firebase_cache w1 = firebase_cache w.
Proof.
  unfold authenticate_user, cached.
  destruct (user_cache w) as [[user elements]|]; [by eauto 10|].
  unfold authenticate_user_body, try_except, bind, ask.
  destruct (Py.truthy (default [] (secret_initial_auth_token env)));
    [|by eauto 10].
  destruct (verify_id_token env (default [] (secret_initial_auth_token env)));
    by eauto 10.
Qed.

(** X13: neither [initialize_firebase] nor [authenticate_user] ever
    raises or stops the run, whatever Firebase answers: each returns a
    value, and neither touches the database or the session state. *)
Theorem setup_never_raises env w :
  (∃ handle w1,
     initialize_firebase env w = (Returns handle, w1)
     ∧ firestore w1 = firestore w ∧ session_state w1 = session_state w)
  ∧ (∃ user w1,
       authenticate_user env w = (Returns user, w1)
       ∧ firestore w1 = firestore w ∧ session_state w1 = session_state w).
Proof.
  split.
  - destruct (initialize_firebase_returns env w) as (handle & w1 & ? & ? & ? & _).
    by eauto.
  - destruct (authenticate_user_returns env w) as (user & w1 & ? & ? & ? & _).
    by eauto.
Qed.

(** ** A failed authentication stays *)

(** A run that finds the failure marker in the cache stops before
    [main]. *)
Lemma script_marked_stops env w elements :
  user_cache w = Some (auth_failed, elements) →
  ∃ w', script env w = (Control StopException, w')
        ∧ firestore w' = firestore w
        ∧ session_state w' = session_state w
        ∧ user_cache w' = Some (auth_failed, elements).
Proof.
  intros Hcache.
  destruct (initialize_firebase_returns env (with_widgets [] w))
    as (handle & w1 & Hinit & Hfs & Hsession & _ & Huser).
  cbn [user_cache with_widgets] in Huser.
  assert (Hauth : authenticate_user env w1 = (Returns auth_failed, log elements w1)).
  { unfold authenticate_user, cached. by rewrite Huser, Hcache. }
  exists (log elements w1). split; [|by rewrite <-Hcache, <-Huser].
  unfold script.
  rewrite (bind_returns _ _ env w tt (with_widgets [] w)) by done.
  rewrite (bind_returns _ _ env _ _ (with_widgets [] w)) by done.
  rewrite (bind_returns _ _ env _ _ _ Hinit).
  rewrite (bind_returns _ _ env _ _ _ Hauth).
  by rewrite bool_decide_eq_true_2 by done.
Qed.

(** The run in which the verification of the token raises. *)
Lemma script_auth_failure env w token e :
  secret_initial_auth_token env = Some token → token ≠ [] →
  verify_id_token env token = Fault e →
  user_cache w = None →
  ∃ w', script env w = (Control StopException, w')
        ∧ firestore w' = firestore w
        ∧ session_state w' = session_state w
        ∧ user_cache w' = Some (auth_failed, [auth_report e]).
Proof.
  intros Htoken Hne Hverify Hcache.
  destruct (initialize_firebase_returns env (with_widgets [] w))
    as (handle & w1 & Hinit & Hfs & Hsession & _ & Huser).
  assert (Hauth := authenticate_user_fails env w1 token e Htoken Hne Hverify
                     ltac:(by rewrite Huser)).
  exists (with_user_cache (auth_failed, [auth_report e]) (log [auth_report e] w1)).
  split; [|by split_and!].
  unfold script.
  rewrite (bind_returns _ _ env w tt (with_widgets [] w)) by done.
  rewrite (bind_returns _ _ env _ _ (with_widgets [] w)) by done.
  rewrite (bind_returns _ _ env _ _ _ Hinit).
  rewrite (bind_returns _ _ env _ _ _ Hauth).
  by rewrite bool_decide_eq_true_2 by done.
Qed.

Lemma runs_marked_stop envs w elements :
  user_cache w = Some (auth_failed, elements) →
  firestore (runs envs w) = firestore w
  ∧ session_state (runs envs w) = session_state w
  ∧ user_cache (runs envs w) = Some (auth_failed, elements).
Proof.
  revert w. induction envs as [|env envs IH]; intros w Hcache; [done|].
  destruct (script_marked_stops env w elements Hcache)
    as (w' & Hrun & Hfs & Hsession & Hcache').
  simpl. rewrite Hrun. simpl.
  destruct (IH w' Hcache') as (-> & -> & ->). done.
Qed.

(** X14: the failure marker is cached with the function: once the
    verification of the token has raised in a run, every later run of
    the process stops before [main] as well, whatever the identity
    provider would answer then, and database and session state stay as
    they were. *)
Theorem authentication_failure_is_permanent env w token e envs env' :
  secret_initial_auth_token env = Some token → token ≠ [] →
  verify_id_token env token = Fault e →
  user_cache w = None →
  let later := runs (env :: envs) w in
  (script env' later).1 = Control StopException
  ∧ firestore later = firestore w
  ∧ session_state later = session_state w.
Proof.
  intros Htoken Hne Hverify Hcache later. subst later.
  destruct (script_auth_failure env w token e Htoken Hne Hverify Hcache)
    as (w1 & Hrun & Hfs & Hsession & Hcache1).
  cbn [runs]. rewrite Hrun. cbn [snd].
  destruct (runs_marked_stop envs w1 _ Hcache1) as (Hfs' & Hsession' & Hcache').
  destruct (script_marked_stops env' _ _ Hcache') as (w2 & -> & _).
  split_and!; [done|congruence..].
Qed.

Lemma authentication_failure_is_permanent_witness :
  let later := runs [rejected_token; saving (Py.lit "osmosis") 13000000]
                 (initial twelve_notes) in
  (script valid_token later).1 = Control StopException
  ∧ firestore later = firestore (initial twelve_notes)
  ∧ session_state later = session_state (initial twelve_notes).
Proof.
  apply (authentication_failure_is_permanent rejected_token (initial twelve_notes)
           (Py.lit "expired") (Py.lit "Token expired")
           [saving (Py.lit "osmosis") 13000000] valid_token);
    [reflexivity | discriminate | reflexivity | reflexivity].
Defined.

(** ** A failed initialisation stays *)

Section WithoutHandle.

Context (P : world → Prop).
Hypothesis Hlog : ∀ es w, P w → P (log es w).
Hypothesis Hwidgets : ∀ ws w, P w → P (with_widgets ws w).
Hypothesis Hsession : ∀ s w, P w → P (with_session s w).
Hypothesis Huser : ∀ c w, P w → P (with_user_cache c w).
Hypothesis Hquiz : ∀ k c w, P w → P (with_quiz_cache k c w).

Lemma steady_authenticate_user : preserves P authenticate_user.
Proof.
  apply preserves_cached; [exact Hlog|exact Huser|].
  by apply steady_authenticate_user_body.
Qed.

Lemma steady_generate_quiz_content notes_content :
  preserves P (generate_quiz_content notes_content).
Proof.
  apply preserves_cached; [exact Hlog|intros; by apply Hquiz|].
  by apply steady_generate_quiz_content_body.
Qed.

(** Without a handle, saving only draws. *)
Lemma steady_save_note_without_handle g notes_content :
  db g = None → preserves P (save_note g notes_content).
Proof.
  intros Hdb env w Hw. rewrite save_note_rejected by auto. by apply Hlog.
Qed.

(** A run whose initialisation yields no handle keeps the invariant from
    there on. *)
Lemma script_without_handle env w w1 :
  initialize_firebase env (with_widgets [] w) = (Returns None, w1) →
  P w1 → P (script env w).2.
Proof.
  intros Hinit Hw1. unfold script.
  rewrite (bind_returns _ _ env w tt (with_widgets [] w)) by done.
  rewrite (bind_returns _ _ env _ _ (with_widgets [] w)) by done.
  rewrite (bind_returns _ _ env _ _ _ Hinit).
  revert Hw1. generalize w1. generalize env.
  change (preserves P
            (user <- authenticate_user ;;
             (if bool_decide (user = auth_failed) then st.stop else ret tt) ;;;
             main {| APP_ID := Py.or_else (secret_app_id env) (Py.lit "default-app-id");
                     db := None; USER_ID := user;
                     NOTES_COLLECTION_PATH :=
                       notes_collection_path
                         (Py.or_else (secret_app_id env) (Py.lit "default-app-id"))
                         user |})).
  apply preserves_bind; [apply steady_authenticate_user|]. intros user.
  apply preserves_bind.
  - case_bool_decide; [apply preserves_control|apply preserves_ret].
  - intros _. apply steady_main; try done.
    + intros. by apply steady_save_note_without_handle.
    + apply steady_generate_quiz_content.
Qed.

End WithoutHandle.

Lemma runs_without_handle envs w elements :
  firebase_cache w = Some (None, elements) →
  firestore (runs envs w) = firestore w
  ∧ firebase_cache (runs envs w) = Some (None, elements).
Proof.
  revert w. induction envs as [|env envs IH]; intros w Hcache; [done|].
  cbn [runs].
  assert (Hrun : firebase_cache (script env w).2 = Some (None, elements)
                 ∧ firestore (script env w).2 = firestore w).
  { apply (script_without_handle
             (λ w', firebase_cache w' = Some (None, elements)
                    ∧ firestore w' = firestore w)
             ltac:(done) ltac:(done) ltac:(done) ltac:(done) ltac:(done)
             env w (log elements (with_widgets [] w))); [|done].
    unfold initialize_firebase, cached. cbn [firebase_cache with_widgets].
    by rewrite Hcache. }
  destruct Hrun as [Hcache' Hfs]. destruct (IH _ Hcache') as [-> ->]. done.
Qed.

(** X15: the missing handle is cached with the function: once the setup
    of Firebase has raised in a run, that run and every later run of the
    process work without a handle, and the database is never written
    again, whatever is typed or clicked and even if Firebase could be set
    up by then. *)
Theorem initialisation_failure_is_permanent env w e envs :
  firebase_cache w = None → firebase_setup env = Fault e →
  firestore (runs (env :: envs) w) = firestore w
  ∧ firebase_cache (runs (env :: envs) w) = Some (None, [init_report e]).
Proof.
  intros Hcache Hsetup. cbn [runs].
  assert (Hrun : firebase_cache (script env w).2 = Some (None, [init_report e])
                 ∧ firestore (script env w).2 = firestore w).
  { apply (script_without_handle
             (λ w', firebase_cache w' = Some (None, [init_report e])
                    ∧ firestore w' = firestore w)
             ltac:(done) ltac:(done) ltac:(done) ltac:(done) ltac:(done)
             env w _ (initialize_firebase_fails env (with_widgets [] w) e Hcache Hsetup)).
    done. }
  destruct Hrun as [Hcache' Hfs].
  destruct (runs_without_handle envs _ _ Hcache') as [-> ->]. done.
Qed.

Lemma initialisation_failure_is_permanent_witness :
  firestore (runs [no_database; valid_token; saving (Py.lit "osmosis") 13000000]
               (initial twelve_notes))
  = firestore (initial twelve_notes)
  ∧ firebase_cache (runs [no_database; valid_token; saving (Py.lit "osmosis") 13000000]
                      (initial twelve_notes))
    = Some (None, [init_report (Py.lit "Invalid certificate")]).
Proof.
  apply (initialisation_failure_is_permanent no_database (initial twelve_notes)
           (Py.lit "Invalid certificate")
           [valid_token; saving (Py.lit "osmosis") 13000000]);
    reflexivity.
Defined.

(** ** The session never holds the error dictionary *)

Lemma save_note_session g env w notes_content :
  session_state (save_note g notes_content env w).2 = session_state w.
Proof.
  by destruct (save_note_cases g env w notes_content)
    as [->|[->|[[e ->]|(ts & _ & _ & ->)]]].
Qed.

Lemma generate_quiz_content_session notes_content env w :
  session_state (generate_quiz_content notes_content env w).2 = session_state w.
Proof.
  unfold generate_quiz_content, cached.
  destruct (quiz_cache w !! notes_content) as [[r elements]|]; [done|].
  destruct (decide (Py.strip notes_content = [])) as [Hs|Hs].
  - by rewrite generate_quiz_content_body_blank.
  - by rewrite generate_quiz_content_body_text.
Qed.

Section OnlyPlaceholder.

Lemma only_placeholder_log es w : only_placeholder w → only_placeholder (log es w).
Proof. by unfold only_placeholder. Qed.

Lemma only_placeholder_widgets ws w :
  only_placeholder w → only_placeholder (with_widgets ws w).
Proof. by unfold only_placeholder. Qed.

(** A change of the session that invents no result keeps the invariant. *)
Lemma only_placeholder_session (f : session → session) :
  (∀ s d, quiz_result (f s) = Some (Some d) → quiz_result s = Some (Some d)) →
  preserves only_placeholder (modify (λ w, with_session (f (session_state w)) w)).
Proof.
  intros Hf env w [Hsound Hresult]. split; [done|].
  intros d Hd. apply Hresult. by apply Hf.
Qed.

Lemma init_session_result s d :
  quiz_result (init_session s) = Some (Some d) → quiz_result s = Some (Some d).
Proof. simpl. by destruct (quiz_result s) as [[?|]|]. Qed.

Lemma only_placeholder_save_note g notes_content :
  preserves only_placeholder (save_note g notes_content).
Proof.
  intros env w [Hsound Hresult]. split.
  - unfold quiz_cache_sound. by rewrite save_note_quiz_cache.
  - by rewrite save_note_session.
Qed.

(** A hit or a miss on a blank input included, generating keeps it. *)
Lemma only_placeholder_generate notes_content :
  preserves only_placeholder (generate_quiz_content notes_content).
Proof.
  intros env w [Hsound Hresult]. split.
  - by apply generate_quiz_content_sound.
  - by rewrite generate_quiz_content_session.
Qed.

(** The generate button on a text that is not blank: the placeholder is
    what goes into the session. *)
Lemma only_placeholder_generate_branch notes_content :
  Py.truthy (Py.strip notes_content) = true →
  preserves only_placeholder
    (r <- generate_quiz_content notes_content ;;
     modify (λ w, with_session (set_generated r (session_state w)) w) ;;;
     st.rerun (A:=unit)).
Proof.
  intros Htext env w Hw.
  assert (Hs : Py.strip notes_content ≠ []) by (by destruct (Py.strip notes_content)).
  pose proof (only_placeholder_generate notes_content env w Hw) as [Hsound' _].
  pose proof (generate_quiz_content_result notes_content env w (proj1 Hw)) as Hr.
  rewrite generate_quiz_content_body_text in Hr by done.
  unfold bind at 1.
  destruct (generate_quiz_content notes_content env w) as [[r|e|c] w1];
    simpl in Hr; [|done..].
  injection Hr as ->. split; [done|]. simpl. by intros d [= <-].
Qed.

Lemma only_placeholder_display_saved_notes g :
  preserves only_placeholder (display_saved_notes g).
Proof.
  unfold display_saved_notes, st.info, st.error, st.rerun, notes_list, notes_stream.
  repeat first
    [ progress intros
    | apply (only_placeholder_session (load_note _)); by intros
    | apply preserves_bind | apply preserves_try_except | apply preserves_when
    | apply preserves_for_each
    | apply preserves_ret | apply preserves_control
    | apply quiet_emit; [exact only_placeholder_log]
    | apply quiet_button; [exact only_placeholder_log|exact only_placeholder_widgets]
    | apply quiet_stream; [exact only_placeholder_log]
    | apply preserves_db_collection
    | match goal with
      | |- preserves _ (match ?x with _ => _ end) => destruct x
      end ].
Qed.

Lemma only_placeholder_main g : preserves only_placeholder (main g).
Proof.
  unfold main, st.info, st.warning, st.text_area, st.rerun.
  repeat first
    [ progress intros
    | apply only_placeholder_save_note
    | apply only_placeholder_display_saved_notes
    | apply quiet_display_quiz;
      [exact only_placeholder_log|exact only_placeholder_widgets]
    | apply (only_placeholder_session init_session); exact init_session_result
    | apply (only_placeholder_session (set_notes_input _)); by intros
    | match goal with
      | |- preserves _ (if negb (Py.truthy (Py.strip ?s)) then _ else _) =>
          destruct (Py.truthy (Py.strip s)) eqn:?; cbn [negb];
          [by apply only_placeholder_generate_branch|]
      end
    | apply preserves_bind | apply preserves_when
    | apply preserves_ret | apply preserves_ask | apply preserves_get
    | apply quiet_emit; [exact only_placeholder_log]
    | apply quiet_button; [exact only_placeholder_log|exact only_placeholder_widgets]
    | match goal with
      | |- preserves _ (match ?x with _ => _ end) => destruct x
      end ].
Qed.

Lemma only_placeholder_script : preserves only_placeholder script.
Proof.
  unfold script, st.stop.
  repeat first
    [ progress intros
    | apply only_placeholder_main
    | apply preserves_cached;
      [exact only_placeholder_log|by intros|
       first [apply steady_initialize_firebase_body
             |apply steady_authenticate_user_body];
       first [exact only_placeholder_log|exact only_placeholder_widgets]]
    | apply preserves_modify; by intros
    | apply preserves_bind | apply preserves_ask | apply preserves_control
    | apply preserves_ret
    | match goal with
      | |- preserves _ (match ?x with _ => _ end) => destruct x
      end ].
Qed.

End OnlyPlaceholder.

(** X16: whatever is typed and clicked over any number of runs, the
    result the session holds for the second tab is never the error
    dictionary: if there is one, it is the placeholder.  [main] asks the
    generator only for text that is not blank, so the error branch of
    [display_quiz] is never taken. *)
Theorem session_never_holds_error envs d0 d :
  quiz_result (session_state (runs envs (initial d0))) = Some (Some d) →
  d = placeholder ∧ Quiz.get_error d = None.
Proof.
  assert (Hinv : only_placeholder (runs envs (initial d0))).
  { generalize (initial d0),
      (conj (quiz_cache_sound_initial d0)
         (λ d (H : quiz_result (session_state (initial d0)) = Some (Some d)),
            ltac:(discriminate H)) : only_placeholder (initial d0)).
    induction envs as [|env envs IH]; intros w Hw; [done|].
    by apply IH, only_placeholder_script. }
  intros Hd. by rewrite (proj2 Hinv d Hd).
Qed.

Lemma session_never_holds_error_witness :
  placeholder = placeholder ∧ Quiz.get_error placeholder = None.
Proof.
  apply (session_never_holds_error
           [generating (Py.lit "mitosis"); generating (Py.lit "   ")] ∅ placeholder).
  by vm_compute.
Defined.

(** ** The buttons of [main] *)

Lemma button_fresh label key env w :
  key ∉ widgets w →
  st.button label key env w
  = (Returns (clicked env key),
     log [st_button label] (with_widgets (widgets w ++ [key]) w)).
Proof. intros Hkey. unfold st.button. by rewrite bool_decide_eq_false_2. Qed.




(** X18: in a run of [main] where the generate button is clicked, the
    save button is not, and the text area is empty or holds only
    whitespace, the warning to enter notes is drawn and the generator is
    not asked: its cache is as it was at the end of the run. *)
Theorem main_generate_blank g env w :
  save_button ∉ widgets w → generate_button ∉ widgets w →
  clicked env save_button = false → clicked env generate_button = true →
  all_space (default (default [] (notes_input (session_state w))) (input_area env)) →
  st_warning (Py.lit "Please enter some notes first.") ∈ trace (main g env w).2
  ∧ quiz_cache (main g env w).2 = quiz_cache w.
Proof.
  intros Hsave_key Hgenerate_key Hsave Hgenerate Hblank%strip_truthy.
  unfold main.
  erewrite bind_returns by reflexivity.
  erewrite bind_returns by reflexivity.
  erewrite bind_returns by reflexivity.
  erewrite bind_returns by reflexivity.
  erewrite bind_returns by reflexivity.
  erewrite bind_returns by (by apply button_fresh).
  rewrite Hsave. cbn [when].
  erewrite bind_returns by reflexivity.
  erewrite bind_returns.
  2: { apply button_fresh. cbn [widgets log with_widgets with_session].
       rewrite elem_of_app, list_elem_of_singleton. by intros [?|?]. }
  rewrite Hgenerate. cbn [when].
  unfold st.text_area, ask.
  cbn [fst snd session_state with_session log with_widgets init_session
       notes_input default].
  change (id (default [] (notes_input (session_state w))))
    with (default [] (notes_input (session_state w))).
  rewrite Hblank. cbn [negb].
  erewrite bind_returns by reflexivity.
  set (P := λ w' : world,
         st_warning (Py.lit "Please enter some notes first.") ∈ trace w'
         ∧ quiz_cache w' = quiz_cache w).
  assert (Hlog : ∀ es w', P w' → P (log es w')).
  { intros es w' [Hin Hcache]. split; [|done].
    cbn [trace log]. rewrite elem_of_app. by left. }
  assert (Hwidgets : ∀ ws w', P w' → P (with_widgets ws w')) by done.
  assert (Hsession : ∀ s w', P w' → P (with_session s w')) by done.
  match goal with
  | |- _ ∈ trace (?m env ?w5).2 ∧ _ =>
      assert (Hrest : preserves P m); [|apply (Hrest env w5)]
  end.
  - apply preserves_bind; [by apply steady_display_saved_notes|]. intros _.
    apply preserves_bind; [apply preserves_get|]. intros [[d|]|].
    + by apply quiet_display_quiz.
    + by apply quiet_emit.
    + by apply quiet_emit.
  - split; [|done]. cbn [trace log]. rewrite elem_of_app. right. by left.
Qed.

Lemma main_generate_blank_witness :
  st_warning (Py.lit "Please enter some notes first.")
  ∈ trace (main (example_globals (Some Client)) (generating (Py.lit "   "))
             (initial ∅)).2
  ∧ quiz_cache (main (example_globals (Some Client)) (generating (Py.lit "   "))
                  (initial ∅)).2
    = quiz_cache (initial ∅).
Proof.
  apply (main_generate_blank (example_globals (Some Client))
           (generating (Py.lit "   ")) (initial ∅)).
  - apply not_elem_of_nil.
  - apply not_elem_of_nil.
  - reflexivity.
  - reflexivity.
  - repeat constructor.
Defined.

(** X19: in a run of [main] where the save button is clicked, the
    generate button is not, the text area holds text that is not blank,
    the handle is initialised, the client accepts the collection path (an
    odd number of elements) and the store commits the write, the
    database at the end of the run is the database at its start with
    exactly one record set, under the generated ID in the user's
    collection: the stripped text of the text area, titled from it and
    stamped with the commit time. *)
Theorem main_save g env w text c ts :
  save_button ∉ widgets w → generate_button ∉ widgets w →
  clicked env save_button = true → clicked env generate_button = false →
  default (default [] (notes_input (session_state w))) (input_area env) = text →
  Py.strip text ≠ [] →
  db g = Some c →
  Firestore.is_collection_path (NOTES_COLLECTION_PATH g) = true →
  commit env = Reply ts →
  user_notes g w !! new_id g env w = None
  ∧ firestore (main g env w).2
    = Firestore.set_document (NOTES_COLLECTION_PATH g) (new_id g env w)
        {| content := Py.strip text; timestamp := ts;
           title := note_title (Py.strip text); user_id := USER_ID g |}
        (firestore w).
Proof.
  intros Hsave_key Hgenerate_key Hsave Hgenerate Htext Hs Hdb Hpath Hcommit.
  split; [apply new_id_free|].
  unfold main.
  erewrite bind_returns by reflexivity.
  erewrite bind_returns by reflexivity.
  erewrite bind_returns by reflexivity.
  erewrite bind_returns by reflexivity.
  erewrite bind_returns by reflexivity.
  erewrite bind_returns by (by apply button_fresh).
  rewrite Hsave. cbn [when].
  unfold st.text_area, ask.
  cbn [fst snd session_state with_session log with_widgets init_session
       notes_input default].
  replace (default (id (default [] (notes_input (session_state w)))) (input_area env))
    with text by (by rewrite <-Htext).
  erewrite bind_returns by (by apply (save_note_committed g env _ text c ts)).
  erewrite bind_returns.
  2: { apply button_fresh.
       cbn [widgets log with_widgets with_session with_firestore].
       rewrite elem_of_app, list_elem_of_singleton. by intros [?|?]. }
  rewrite Hgenerate. cbn [when].
  erewrite bind_returns by reflexivity.
  set (d := Firestore.set_document _ _ _ (firestore w)).
  match goal with
  | |- firestore (?m env ?w5).2 = _ =>
      assert (Hrest : preserves (λ w', firestore w' = d) m); [|apply (Hrest env w5)]
  end.
  - apply preserves_bind; [by apply steady_display_saved_notes|]. intros _.
    apply preserves_bind; [apply preserves_get|]. intros [[q|]|].
    + by apply quiet_display_quiz.
    + by apply quiet_emit.
    + by apply quiet_emit.
  - done.
Qed.

Lemma main_save_witness :
  user_notes (example_globals (Some Client)) (initial twelve_notes)
    !! new_id (example_globals (Some Client)) (saving (Py.lit " osmosis ") 13000000)
         (initial twelve_notes) = None
  ∧ firestore (main (example_globals (Some Client))
                 (saving (Py.lit " osmosis ") 13000000) (initial twelve_notes)).2
    = Firestore.set_document (NOTES_COLLECTION_PATH (example_globals (Some Client)))
        (new_id (example_globals (Some Client)) (saving (Py.lit " osmosis ") 13000000)
           (initial twelve_notes))
        {| content := Py.strip (Py.lit " osmosis "); timestamp := 13000000;
           title := note_title (Py.strip (Py.lit " osmosis "));
           user_id := USER_ID (example_globals (Some Client)) |}
        (firestore (initial twelve_notes)).
Proof.
  apply (main_save (example_globals (Some Client))
           (saving (Py.lit " osmosis ") 13000000) (initial twelve_notes)
           (Py.lit " osmosis ") Client 13000000).
  - apply not_elem_of_nil.
  - apply not_elem_of_nil.
  - reflexivity.
  - reflexivity.
  - reflexivity.
  - by vm_compute.
  - reflexivity.
  - reflexivity.
  - reflexivity.
Defined.
